(** * API-AutoFuzz: a shallow embedding of [fuzzer.py]

    The program loads an OpenAPI document, substitutes a fixed list of
    payloads into the path parameters of every operation, sends one request
    per (path, method, payload) and records the path templates that answered
    with status 200.  This development embeds the Python functions of
    [fuzzer.py] as Rocq functions over an explicit program state and an
    explicit environment (network, clock, file system), and proves the
    properties of the specification about them.

    Strings are Python [str] values read as their UTF-8 bytes; every string
    operation the program uses ([replace], [lstrip], [split], [find]) looks
    for ASCII characters or for whole substrings, so it acts on the bytes
    exactly as on the code points. *)

From Stdlib Require Import Bool Arith ZArith List String Ascii Floats Lia.
From Stdlib Require Import Numbers.DecimalString.
Import ListNotations.

Open Scope string_scope.
Open Scope list_scope.

(* ================================================================== *)
(** * Python strings *)

Module PyStr.

Definition is_empty (s : string) : bool :=
  match s with EmptyString => true | String _ _ => false end.

(** [c in chars] for a character and a string of characters. *)
Fixpoint mem (c : ascii) (chars : string) : bool :=
  match chars with
  | EmptyString => false
  | String d r => Ascii.eqb c d || mem c r
  end.

(** [s.lstrip(chars)]: drops every leading character that occurs in [chars]. *)
Fixpoint lstrip (chars : string) (s : string) : string :=
  match s with
  | EmptyString => EmptyString
  | String c r => if mem c chars then lstrip chars r else s
  end.

(** [s.startswith(p)]. *)
Fixpoint startswith (p s : string) : bool :=
  match p, s with
  | EmptyString, _ => true
  | String a p', String b s' => Ascii.eqb a b && startswith p' s'
  | String _ _, EmptyString => false
  end.

(** [s.replace(old, new)]: the non-overlapping occurrences of [old] are
    replaced from left to right.  [skip] counts the characters of a matched
    occurrence still to be passed over.  With an empty [old] Python inserts
    [new] before every character and at the end. *)
Fixpoint replace_from (old new : string) (skip : nat) (s : string) : string :=
  match s with
  | EmptyString => if is_empty old then new else EmptyString
  | String c r =>
      match skip with
      | S k => replace_from old new k r
      | O =>
          if startswith old s then
            if is_empty old then new ++ String c (replace_from old new 0 r)
            else new ++ replace_from old new (String.length old - 1) r
          else String c (replace_from old new 0 r)
      end
  end.

Definition replace (old new s : string) : string := replace_from old new 0 s.

(** [s.split(sep)] for a one-character separator: never the empty list. *)
Fixpoint split (sep : ascii) (s : string) : list string :=
  match s with
  | EmptyString => [EmptyString]
  | String c r =>
      if Ascii.eqb c sep then EmptyString :: split sep r
      else match split sep r with
           | h :: t => String c h :: t
           | [] => [String c EmptyString]
           end
  end.

(** [sep.join(l)]. *)
Fixpoint join (sep : string) (l : list string) : string :=
  match l with
  | [] => EmptyString
  | [x] => x
  | x :: r => x ++ sep ++ join sep r
  end.

(** [s.find(c)] for a character: [None] is Python's [-1]. *)
Fixpoint find (c : ascii) (s : string) : option nat :=
  match s with
  | EmptyString => None
  | String d r =>
      if Ascii.eqb c d then Some 0
      else match find c r with Some i => Some (S i) | None => None end
  end.

(** [s.rfind(c)]. *)
Fixpoint rfind (c : ascii) (s : string) : option nat :=
  match s with
  | EmptyString => None
  | String d r =>
      match rfind c r with
      | Some i => Some (S i)
      | None => if Ascii.eqb c d then Some 0 else None
      end
  end.

(** [s[:n]] and [s[n:]]. *)
Fixpoint take (n : nat) (s : string) : string :=
  match n, s with
  | S k, String c r => String c (take k r)
  | _, _ => EmptyString
  end.

Fixpoint drop (n : nat) (s : string) : string :=
  match n, s with
  | S k, String _ r => drop k r
  | _, _ => s
  end.

(** [s.find(c, start)]. *)
Definition find_from (c : ascii) (start : nat) (s : string) : option nat :=
  match find c (drop start s) with
  | Some i => Some (start + i)
  | None => None
  end.

(** [s.split(c, 1)] when [c] occurs in [s]: the text before and after its
    first occurrence. *)
Definition partition (c : ascii) (s : string) : option (string * string) :=
  match find c s with
  | Some i => Some (take i s, drop (S i) s)
  | None => None
  end.

Fixpoint forallb (p : ascii -> bool) (s : string) : bool :=
  match s with
  | EmptyString => true
  | String c r => p c && forallb p r
  end.

Fixpoint filter (p : ascii -> bool) (s : string) : string :=
  match s with
  | EmptyString => EmptyString
  | String c r => if p c then String c (filter p r) else filter p r
  end.

Fixpoint map (f : ascii -> ascii) (s : string) : string :=
  match s with
  | EmptyString => EmptyString
  | String c r => String (f c) (map f r)
  end.

(** [c * n]: the character repeated. *)
Fixpoint repeat (c : ascii) (n : nat) : string :=
  match n with
  | O => EmptyString
  | S k => String c (repeat c k)
  end.

Definition is_upper (c : ascii) : bool :=
  let n := nat_of_ascii c in (65 <=? n)%nat && (n <=? 90)%nat.
Definition is_lower (c : ascii) : bool :=
  let n := nat_of_ascii c in (97 <=? n)%nat && (n <=? 122)%nat.
Definition is_digit (c : ascii) : bool :=
  let n := nat_of_ascii c in (48 <=? n)%nat && (n <=? 57)%nat.
Definition is_ascii (c : ascii) : bool := (nat_of_ascii c <? 128)%nat.

(** [str.lower] on ASCII letters (all it is applied to below). *)
Definition lower_char (c : ascii) : ascii :=
  if is_upper c then ascii_of_nat (nat_of_ascii c + 32) else c.

(** The line feed character. *)
Definition LF : ascii := ascii_of_nat 10.

(** [str(n)] for integers. *)
Definition of_Z (z : Z) : string := NilZero.string_of_int (Z.to_int z).
Definition of_nat (n : nat) : string := NilZero.string_of_uint (Nat.to_uint n).

End PyStr.

(* ================================================================== *)
(** * JSON documents, as [json.load] returns them *)

(** [None], [bool], [int], [float], [str], [list] and [dict].  A [dict] keeps
    its items in insertion order, which is the order [items()] yields them
    in; [json.load] never produces two items with the same key. *)
#[local] Set Warnings "-register-all".
Inductive json : Type :=
| JNull
| JBool (b : bool)
| JInt (z : Z)
| JFloat (f : float)
| JString (s : string)
| JArray (l : list json)
| JObject (m : list (string * json)).

(** Python truthiness, as [if spec:] and [if args.url] use it. *)
Definition truthy (v : json) : bool :=
  match v with
  | JNull => false
  | JBool b => b
  | JInt z => negb (Z.eqb z 0)
  | JFloat f => negb (PrimFloat.eqb f 0%float)
  | JString s => negb (PyStr.is_empty s)
  | JArray l => match l with [] => false | _ => true end
  | JObject m => match m with [] => false | _ => true end
  end.

(** Lookup of a key among the items of a dict. *)
Fixpoint assoc (k : string) (m : list (string * json)) : option json :=
  match m with
  | [] => None
  | (k', v) :: r => if String.eqb k k' then Some v else assoc k r
  end.

(** The exceptions the program can meet. *)
Inductive exn : Type :=
| KeyboardInterrupt
| AttributeError
| TypeError
| KeyError
| ValueError
| UnicodeDecodeError
| OSError
| OtherError (name : string).

(** The result of evaluating an expression that may raise. *)
Inductive outcome (A : Type) : Type :=
| Done (a : A)
| Raised (e : exn).
Arguments Done {A} a.
Arguments Raised {A} e.

(** [d.get(key, default)]: only a dict has [get]. *)
Definition py_get (d : json) (key : string) (default : json) : outcome json :=
  match d with
  | JObject m => Done (match assoc key m with Some v => v | None => default end)
  | _ => Raised AttributeError
  end.

(** [d.items()]: only a dict has [items]. *)
Definition py_items (d : json) : outcome (list (string * json)) :=
  match d with
  | JObject m => Done m
  | _ => Raised AttributeError
  end.

(** [d[key]] for a string key: [KeyError] on a dict without the key,
    [TypeError] on every other JSON value. *)
Definition py_index (d : json) (key : string) : outcome json :=
  match d with
  | JObject m => match assoc key m with Some v => Done v | None => Raised KeyError end
  | _ => Raised TypeError
  end.

(** [v == 'text'] for a JSON value and a string literal. *)
Definition eq_str (v : json) (text : string) : bool :=
  match v with
  | JString s => String.eqb s text
  | _ => false
  end.

(* ================================================================== *)
(** * [urllib.parse.urljoin] *)

(** The program resolves every request target with [urljoin] of the Python
    standard library.  The functions of this module follow CPython 3.12's
    [Lib/urllib/parse.py] ([urlsplit], [urlparse], [urlunsplit], [urlunparse],
    [urljoin]) on [str] arguments.  The part of the validation of a network
    location that [urlsplit] hands to [ipaddress] and [unicodedata] is the
    parameter [netloc_check]. *)
Module Urllib.

#[local] Open Scope string_scope.

Definition uses_relative : list string :=
  [""; "ftp"; "http"; "gopher"; "nntp"; "imap"; "wais"; "file"; "https";
   "shttp"; "mms"; "prospero"; "rtsp"; "rtspu"; "sftp"; "svn"; "svn+ssh";
   "ws"; "wss"].

Definition uses_netloc : list string :=
  [""; "ftp"; "http"; "gopher"; "nntp"; "telnet"; "imap"; "wais"; "file";
   "mms"; "https"; "shttp"; "snews"; "prospero"; "rtsp"; "rtspu"; "rsync";
   "svn"; "svn+ssh"; "sftp"; "nfs"; "git"; "git+ssh"; "ws"; "wss";
   "itms-services"].

Definition uses_params : list string :=
  [""; "ftp"; "hdl"; "prospero"; "http"; "imap"; "https"; "shttp"; "rtsp";
   "rtspu"; "sip"; "sips"; "mms"; "sftp"; "tel"].

Definition mem_str (x : string) (l : list string) : bool :=
  existsb (String.eqb x) l.

(** [scheme_chars]: the ASCII letters, the digits and [+-.]. *)
Definition scheme_char (c : ascii) : bool :=
  PyStr.is_lower c || PyStr.is_upper c || PyStr.is_digit c || PyStr.mem c "+-.".

(** [_WHATWG_C0_CONTROL_OR_SPACE]: the characters up to the space. *)
Definition c0_or_space (c : ascii) : bool := (nat_of_ascii c <=? 32)%nat.

(** [_UNSAFE_URL_BYTES_TO_REMOVE]: tab, carriage return and line feed. *)
Definition unsafe_byte (c : ascii) : bool :=
  let n := nat_of_ascii c in
  (n =? 9)%nat || (n =? 13)%nat || (n =? 10)%nat.

Fixpoint lstrip_c0 (s : string) : string :=
  match s with
  | EmptyString => EmptyString
  | String c r => if c0_or_space c then lstrip_c0 r else s
  end.

Fixpoint rstrip_c0 (s : string) : string :=
  match s with
  | EmptyString => EmptyString
  | String c r =>
      let r' := rstrip_c0 r in
      if PyStr.is_empty r' && c0_or_space c then EmptyString else String c r'
  end.

Definition remove_unsafe (s : string) : string :=
  PyStr.filter (fun c => negb (unsafe_byte c)) s.

(** The components of a URL: [SplitResult] has no [params]. *)
Record ParseResult : Type := mkParse {
  scheme : string;
  netloc : string;
  path : string;
  params : string;
  query : string;
  fragment : string
}.

(** The scheme test of [urlsplit]: a colon after the first character, a first
    character that is an ASCII letter, and only scheme characters before the
    colon.  Returns the scheme (lower case) and the rest of the URL. *)
Definition split_scheme (url default : string) : string * string :=
  match PyStr.find ":" url with
  | Some (S i) =>
      match url with
      | String c _ =>
          if (PyStr.is_lower c || PyStr.is_upper c)
             && PyStr.forallb scheme_char (PyStr.take (S i) url)
          then (PyStr.map PyStr.lower_char (PyStr.take (S i) url),
                PyStr.drop (S (S i)) url)
          else (default, url)
      | EmptyString => (default, url)
      end
  | _ => (default, url)
  end.

(** [_splitnetloc(url, 2)]: the text between the two slashes and the first
    of [/], [?] and [#], and what follows. *)
Fixpoint span_netloc (s : string) : string * string :=
  match s with
  | EmptyString => (EmptyString, EmptyString)
  | String c r =>
      if PyStr.mem c "/?#" then (EmptyString, s)
      else let (n, rest) := span_netloc r in (String c n, rest)
  end.

Section Validation.

(** What [_check_bracketed_netloc] and the NFKC test of [_checknetloc]
    answer for a network location with both brackets or with a character
    outside ASCII. *)
Variable netloc_check : string -> bool.

(** [urlsplit] raises [ValueError] on a network location with one bracket
    only; a location of ASCII characters without brackets is accepted. *)
Definition valid_netloc (n : string) : bool :=
  let opening := PyStr.mem "[" n in
  let closing := PyStr.mem "]" n in
  if xorb opening closing then false
  else if negb opening && PyStr.forallb PyStr.is_ascii n then true
  else netloc_check n.

(** [urlsplit(url, scheme)]; [Raised ValueError] when the network location is
    refused.  [params] is left empty. *)
Definition urlsplit (url default : string) : outcome ParseResult :=
  let url := remove_unsafe (lstrip_c0 url) in
  let default := remove_unsafe (rstrip_c0 (lstrip_c0 default)) in
  let (sch, url) := split_scheme url default in
  let (net, url) :=
    if PyStr.startswith "//" url then span_netloc (PyStr.drop 2 url)
    else (EmptyString, url) in
  if negb (valid_netloc net) then Raised ValueError
  else
    let (url, frag) :=
      match PyStr.partition "#" url with
      | Some (u, f) => (u, f)
      | None => (url, EmptyString)
      end in
    let (url, qry) :=
      match PyStr.partition "?" url with
      | Some (u, q) => (u, q)
      | None => (url, EmptyString)
      end in
    Done (mkParse sch net url EmptyString qry frag).

(** [_splitparams(url)], called when [;] occurs in [url]. *)
Definition splitparams (url : string) : string * string :=
  let cut i := (PyStr.take i url, PyStr.drop (S i) url) in
  match PyStr.rfind "/" url with
  | Some slash =>
      match PyStr.find_from ";" slash url with
      | Some i => cut i
      | None => (url, EmptyString)
      end
  | None =>
      match PyStr.find ";" url with
      | Some i => cut i
      | None => (url, EmptyString)
      end
  end.

(** [urlparse(url, scheme)]. *)
Definition urlparse (url default : string) : outcome ParseResult :=
  match urlsplit url default with
  | Raised e => Raised e
  | Done r =>
      if mem_str (scheme r) uses_params && PyStr.mem ";" (path r) then
        let (p, prm) := splitparams (path r) in
        Done (mkParse (scheme r) (netloc r) p prm (query r) (fragment r))
      else Done r
  end.

(** [urlunsplit] after [urlunparse] has put the parameters back. *)
Definition urlunparse (r : ParseResult) : string :=
  let url :=
    if PyStr.is_empty (params r) then path r
    else path r ++ ";" ++ params r in
  let url :=
    if negb (PyStr.is_empty (netloc r))
       || (negb (PyStr.is_empty (scheme r)) && mem_str (scheme r) uses_netloc
           && negb (PyStr.startswith "//" url))
    then
      let url :=
        if negb (PyStr.is_empty url) && negb (PyStr.startswith "/" url)
        then "/" ++ url else url in
      "//" ++ netloc r ++ url
    else url in
  let url := if PyStr.is_empty (scheme r) then url else scheme r ++ ":" ++ url in
  let url := if PyStr.is_empty (query r) then url else url ++ "?" ++ query r in
  if PyStr.is_empty (fragment r) then url else url ++ "#" ++ fragment r.

(** [segments[1:-1] = filter(None, segments[1:-1])]: the empty segments
    strictly between the first and the last one are dropped. *)
Definition filter_middle (segments : list string) : list string :=
  match segments with
  | [] => []
  | first :: rest =>
      match rest with
      | [] => [first]
      | _ => (first :: List.filter (fun x => negb (PyStr.is_empty x)) (removelast rest)
                    ++ [last rest EmptyString])%list
      end
  end.

(** The loop over [segments] that builds [resolved_path]: [..] pops (an
    empty list stays empty), [.] is skipped. *)
Fixpoint resolve (segments resolved_path : list string) : list string :=
  match segments with
  | [] => resolved_path
  | seg :: r =>
      if String.eqb seg ".." then resolve r (removelast resolved_path)
      else if String.eqb seg "." then resolve r resolved_path
      else resolve r (resolved_path ++ [seg])%list
  end.

(** The path of the joined URL, from the path of the base and a non-empty
    path of the reference. *)
Definition merge_paths (bpath rpath : string) : string :=
  let base_parts := PyStr.split "/" bpath in
  let base_parts :=
    if PyStr.is_empty (last base_parts EmptyString) then base_parts
    else removelast base_parts in
  let segments :=
    if PyStr.startswith "/" rpath then PyStr.split "/" rpath
    else filter_middle (base_parts ++ PyStr.split "/" rpath)%list in
  let resolved_path := resolve segments [] in
  let final := last segments EmptyString in
  let resolved_path :=
    if String.eqb final "." || String.eqb final ".."
    then (resolved_path ++ [EmptyString])%list else resolved_path in
  let joined := PyStr.join "/" resolved_path in
  if PyStr.is_empty joined then "/" else joined.

(** [urljoin(base, url)]. *)
Definition urljoin (base url : string) : outcome string :=
  if PyStr.is_empty base then Done url
  else if PyStr.is_empty url then Done base
  else
    match urlparse base EmptyString with
    | Raised e => Raised e
    | Done b =>
        match urlparse url (scheme b) with
        | Raised e => Raised e
        | Done r =>
            if negb (String.eqb (scheme r) (scheme b))
               || negb (mem_str (scheme r) uses_relative)
            then Done url
            else if mem_str (scheme r) uses_netloc
                    && negb (PyStr.is_empty (netloc r))
            then Done (urlunparse r)
            else
              let net :=
                if mem_str (scheme r) uses_netloc then netloc b else netloc r in
              if PyStr.is_empty (path r) && PyStr.is_empty (params r) then
                Done (urlunparse
                        (mkParse (scheme r) net (path b) (params b)
                           (if PyStr.is_empty (query r) then query b else query r)
                           (fragment r)))
              else
                Done (urlunparse
                        (mkParse (scheme r) net (merge_paths (path b) (path r))
                           (params r) (query r) (fragment r)))
        end
    end.

End Validation.

End Urllib.

(* ================================================================== *)
(** * The environment of a run *)

(** What [requests.request] does for one call: an HTTP response with its
    status code, a [requests.exceptions.RequestException] (connection error,
    timeout, protocol error) with its message, or any other exception, among
    them the [KeyboardInterrupt] of a user who interrupts the blocking call. *)
Inductive reply : Type :=
| Response (status_code : Z)
| RequestException (message : string)
| Raises (e : exn).

(** What opening a file and [json.load] find: no file
    ([os.path.exists] is false, [open] raises [FileNotFoundError]), a file
    that cannot be opened or read (another [OSError] of [open] or of reading:
    no permission, a directory), bytes that are not UTF-8 (reading raises
    [UnicodeDecodeError], a [ValueError] that is not a
    [json.JSONDecodeError]), a text that is not JSON
    ([json.JSONDecodeError]), or a document. *)
Inductive file_state : Type :=
| NoFile
| Unreadable
| Undecodable
| InvalidJson
| Parsed (doc : json).

(** [datetime.datetime.now()]. *)
Record datetime : Type := mkDatetime {
  hour : nat;
  minute : nat;
  second : nat;
  day : nat;
  month : nat;
  year : nat
}.

(** Everything outside the program: the server behind the proxy (asked with
    the number of the request, the method and the URL), the file system, the
    clock, and two library functions that are not modelled: [str] of a JSON
    value that is a float, a list or a dict, and the validation of network
    locations inside [urlsplit]. *)
Class World : Type := {
  server : nat -> string -> string -> reply;
  fs_read : string -> file_state;
  now : datetime;
  str_other : json -> string;
  netloc_check : string -> bool
}.

(** The lines the program prints; each constructor stands for one [print]
    call of [fuzzer.py] and carries the values formatted into it. *)
Inductive line : Type :=
| ConfigWarning (config_file : string)
    (* Warning: Invalid JSON in {config_file}, using defaults *)
| LoadingSpec (file_path : string)
    (* Loading OpenAPI spec from: {file_path} *)
| FileNotFound (file_path : string)
    (* Error: File {file_path} not found *)
| InvalidFormat (file_path : string)
    (* Error: Invalid JSON format in {file_path} *)
| Starting
    (* Starting fuzzing process... *)
| RequestLine (count : nat) (method full_url : string)
    (* Request #{RequestsCount}: {method.upper()} {full_url} *)
| StatusLine (status_code : Z)
    (* STATUS: {res.status_code} *)
| WarningLine (path : string)
    (* WARNING: Potential vulnerability found in: {path} *)
| ErrorLine (message : string)
    (* ERROR: {e} *)
| Completed (total : nat)
    (* Fuzzing completed. Total requests: {RequestsCount - 1} *)
| ResultsSaved (filename : string)
    (* Results saved to: {filename} *)
| NoVulnerable
    (* No vulnerable endpoints found *)
| Interrupted.
    (* Fuzzing interrupted by user *)

(** The observable effects of a run, in the order they happen. *)
Inductive event : Type :=
| Stdout (l : line)
| Request (method full_url : string)
    (* requests.request(method, full_url, data="{}", timeout=10,
                        proxies=proxies, verify=False) *)
| FileWritten (filename content : string).
    (* open(filename, "w") and the writes until the file is closed *)

(** The mutable state: the module-level list [PositiveResponses], the local
    counter [RequestsCount] of [fuzz_path_parameters], and the effects so
    far. *)
Record state : Type := mkState {
  PositiveResponses : list string;
  RequestsCount : nat;
  trace : list event
}.

(** The state when the module has been loaded. *)
Definition initial : state := mkState [] 0 [].

(* ================================================================== *)
(** * Computations: state and exceptions *)

Definition M (A : Type) : Type := state -> state * outcome A.

Definition ret {A} (a : A) : M A := fun s => (s, Done a).

Definition raise {A} (e : exn) : M A := fun s => (s, Raised e).

Definition bind {A B} (m : M A) (k : A -> M B) : M B :=
  fun s =>
    match m s with
    | (s', Done a) => k a s'
    | (s', Raised e) => (s', Raised e)
    end.

Declare Scope py_scope.
Delimit Scope py_scope with py.
Notation "x <- m ;; k" := (bind m (fun x => k))
  (at level 61, m at next level, right associativity) : py_scope.
Notation "m ;; k" := (bind m (fun _ => k))
  (at level 61, right associativity) : py_scope.
Open Scope py_scope.

(** An expression that may raise, evaluated in the current state. *)
Definition lift {A} (o : outcome A) : M A := fun s => (s, o).

Definition emit (e : event) : M unit :=
  fun s => (mkState (PositiveResponses s) (RequestsCount s) (trace s ++ [e]), Done tt).

Definition print (l : line) : M unit := emit (Stdout l).

Definition set_count (n : nat) : M unit :=
  fun s => (mkState (PositiveResponses s) n (trace s), Done tt).

Definition append_finding (path : string) : M unit :=
  fun s => (mkState (PositiveResponses s ++ [path]) (RequestsCount s) (trace s), Done tt).

(** [for x in l: body]. *)
Fixpoint for_each {A} (l : list A) (body : A -> M unit) : M unit :=
  match l with
  | [] => ret tt
  | x :: r => body x ;; for_each r body
  end.

(** [try: body finally: final]. *)
Definition try_finally {A} (body : M A) (final : M unit) : M A :=
  fun s =>
    let (s1, r) := body s in
    match final s1 with
    | (s2, Done _) => (s2, r)
    | (s2, Raised e) => (s2, Raised e)
    end.

(** [try: body except KeyboardInterrupt: handler]. *)
Definition except_KeyboardInterrupt (body handler : M unit) : M unit :=
  fun s =>
    match body s with
    | (s1, Raised KeyboardInterrupt) => handler s1
    | r => r
    end.

(* ================================================================== *)
(** * The program *)

Definition DEFAULT_CONFIG : json :=
  JObject [("base_url", JString "https://api.example.com");
           ("openapi_file", JString "openapi.json");
           ("zap_proxy", JString "http://127.0.0.1:8080")].

Definition FUZZ_PAYLOADS : list string :=
  ["1"; "0"; "6,5"; "24"; "-5"; "*&^$"; "text"].

(** The arguments [argparse] hands over: [--url] and [--file] are [None]
    when absent, [--config] defaults to [config.json]. *)
Record args : Type := mkArgs {
  arg_url : option string;
  arg_file : option string;
  arg_config : string
}.

(** The three values the main block resolves. *)
Record configuration : Type := mkConfiguration {
  BASE_URL : json;
  OPENAPI_FILE : json;
  ZAP_PROXY_HOST : json
}.

(** [a if a else b] for a command-line value: [None] and the empty string
    are falsy. *)
Definition given (a : option string) : option string :=
  match a with
  | Some s => if PyStr.is_empty s then None else Some s
  | None => None
  end.

Section Program.

Context {W : World}.

(** [str(v)], as an f-string formats a value. *)
Definition py_str (v : json) : string :=
  match v with
  | JString s => s
  | JNull => "None"
  | JBool true => "True"
  | JBool false => "False"
  | JInt z => PyStr.of_Z z
  | _ => str_other v
  end.

Definition urljoin (base url : string) : outcome string :=
  Urllib.urljoin netloc_check base url.

(** [load_config(config_file)]. *)
Definition load_config (config_file : string) : M json :=
  match fs_read config_file with
  | NoFile => ret DEFAULT_CONFIG
  | Unreadable => raise OSError
  | Undecodable => raise UnicodeDecodeError
  | InvalidJson => print (ConfigWarning config_file) ;; ret DEFAULT_CONFIG
  | Parsed doc => ret doc
  end.

(** Lines 152 to 157 of the main block. *)
Definition resolve_configuration (a : args) : M configuration :=
  config <- load_config (arg_config a) ;;
  base_url <- match given (arg_url a) with
              | Some u => ret (JString u)
              | None => lift (py_index config "base_url")
              end ;;
  openapi_file <- match given (arg_file a) with
                  | Some f => ret (JString f)
                  | None => lift (py_index config "openapi_file")
                  end ;;
  zap_proxy <- lift (py_index config "zap_proxy") ;;
  ret (mkConfiguration base_url openapi_file zap_proxy).

(** [load_openapi_spec(file_path)]: [None] is [JNull]. *)
Definition load_openapi_spec (file_path : string) : M json :=
  print (LoadingSpec file_path) ;;
  match fs_read file_path with
  | Parsed doc => ret doc
  | NoFile => print (FileNotFound file_path) ;; ret JNull
  | InvalidJson => print (InvalidFormat file_path) ;; ret JNull
  | Unreadable => raise OSError
  | Undecodable => raise UnicodeDecodeError
  end.

(** [[p for p in l if p.get('in') == 'path']] over the elements of a list. *)
Fixpoint select_path_params (l : list json) : outcome (list json) :=
  match l with
  | [] => Done []
  | p :: r =>
      match py_get p "in" JNull with
      | Raised e => Raised e
      | Done location =>
          match select_path_params r with
          | Raised e => Raised e
          | Done r' => Done (if eq_str location "path" then p :: r' else r')
          end
      end
  end.

(** The list comprehension of lines 87 to 90.  Iterating a dict or a string
    yields strings, which have no [get]; the other values are not iterable. *)
Definition path_params_of (operation : json) : outcome (list json) :=
  match py_get operation "parameters" (JArray []) with
  | Raised e => Raised e
  | Done (JArray l) => select_path_params l
  | Done (JObject []) => Done []
  | Done (JObject (_ :: _)) => Raised AttributeError
  | Done (JString EmptyString) => Done []
  | Done (JString (String _ _)) => Raised AttributeError
  | Done _ => Raised TypeError
  end.

(** Lines 97 to 102: every parameter's placeholder replaced in turn. *)
Fixpoint substitute (path_params : list json) (payload fuzzed_path : string)
  : outcome string :=
  match path_params with
  | [] => Done fuzzed_path
  | param :: r =>
      match py_index param "name" with
      | Raised e => Raised e
      | Done name =>
          let placeholder := ("{" ++ py_str name ++ "}")%string in
          substitute r payload (PyStr.replace placeholder payload fuzzed_path)
      end
  end.

(** Lines 119 to 122. *)
Definition classify (path : string) (status_code : Z) : M unit :=
  if Z.eqb status_code 200 then
    fun s =>
      if existsb (String.eqb path) (PositiveResponses s) then ret tt s
      else (append_finding path ;; print (WarningLine path)) s
  else ret tt.

(** Lines 107 to 127: the request with its [try], [except] and [finally]. *)
Definition send (path method full_url : string) : M unit :=
  try_finally
    (fun s =>
       let s1 := fst (emit (Request method full_url) s) in
       match server (RequestsCount s) method full_url with
       | Response status_code =>
           (print (StatusLine status_code) ;; classify path status_code) s1
       | RequestException message => print (ErrorLine message) s1
       | Raises e => raise e s1
       end)
    (fun s => set_count (RequestsCount s + 1) s).

(** Lines 96 to 127: one payload on one (path, method) pair. *)
Definition fuzz_one (base_url path method : string) (path_params : list json)
    (payload : string) : M unit :=
  fuzzed_path <- lift (substitute path_params payload path) ;;
  full_url <- lift (urljoin base_url (PyStr.lstrip "/" fuzzed_path)) ;;
  (fun s => print (RequestLine (RequestsCount s) method full_url) s) ;;
  send path method full_url.

(** Lines 85 to 127: one (path, method) pair. *)
Definition fuzz_operation (base_url path method : string) (operation : json)
  : M unit :=
  path_params <- lift (path_params_of operation) ;;
  match path_params with
  | [] => ret tt
  | _ => for_each FUZZ_PAYLOADS (fuzz_one base_url path method path_params)
  end.

(** [fuzz_path_parameters(spec, base_url, proxies)]. *)
Definition fuzz_path_parameters (spec : json) (base_url : string) : M unit :=
  print Starting ;;
  set_count 1 ;;
  paths <- lift (py_get spec "paths" (JObject [])) ;;
  items <- lift (py_items paths) ;;
  for_each items (fun '(path, path_data) =>
    operations <- lift (py_items path_data) ;;
    for_each operations (fun '(method, operation) =>
      fuzz_operation base_url path method operation)) ;;
  (fun s => print (Completed (RequestsCount s - 1)) s).

(** [strftime("%H-%M-%S_%d-%m-%y")]: every field with two digits. *)
Definition two_digits (n : nat) : string :=
  (PyStr.of_nat ((n / 10) mod 10) ++ PyStr.of_nat (n mod 10))%string.

Definition strftime (t : datetime) : string :=
  (two_digits (hour t) ++ "-" ++ two_digits (minute t) ++ "-"
   ++ two_digits (second t) ++ "_" ++ two_digits (day t) ++ "-"
   ++ two_digits (month t) ++ "-" ++ two_digits (year t))%string.

Definition results_header : string :=
  "Endpoints that returned 200 OK with fuzzed payloads:".

(** The three [write] calls of [save_results], one after the other. *)
Definition results_content (pathList : list string) : string :=
  (results_header ++ String PyStr.LF ""
   ++ PyStr.repeat "=" 50 ++ String PyStr.LF (String PyStr.LF "")
   ++ PyStr.join (String PyStr.LF "") pathList)%string.

(** [save_results(pathList)]. *)
Definition save_results (pathList : list string) : M unit :=
  match pathList with
  | _ :: _ =>
      let timestamp := strftime now in
      let filename := ("results_" ++ timestamp ++ ".txt")%string in
      emit (FileWritten filename (results_content pathList)) ;;
      print (ResultsSaved filename)
  | [] => print NoVulnerable
  end.

(** Lines 173 to 175: the body of the [try] statement of the main block. *)
Definition load_and_fuzz (openapi_file base_url : string) : M unit :=
  spec <- load_openapi_spec openapi_file ;;
  if truthy spec then fuzz_path_parameters spec base_url else ret tt.

(** Lines 172 to 179: the [try] statement of the main block, for a run
    configuration whose file name and base URL are strings. *)
Definition driver (openapi_file base_url : string) : M unit :=
  try_finally
    (except_KeyboardInterrupt
       (load_and_fuzz openapi_file base_url)
       (print Interrupted))
    (fun s => save_results (PositiveResponses s) s).

End Program.

(* ================================================================== *)
(** * Observations on a run *)

(** The requests sent, in order: method and URL. *)
Fixpoint requests_of (t : list event) : list (string * string) :=
  match t with
  | [] => []
  | Request method full_url :: r => (method, full_url) :: requests_of r
  | _ :: r => requests_of r
  end.

(** The paths of the warnings printed, in order. *)
Fixpoint warnings_of (t : list event) : list string :=
  match t with
  | [] => []
  | Stdout (WarningLine path) :: r => path :: warnings_of r
  | _ :: r => warnings_of r
  end.

(** The finding list after one more path has been flagged. *)
Definition recorded (path : string) (findings : list string) : list string :=
  if existsb (String.eqb path) findings then findings else findings ++ [path].

Definition is_warning (e : event) : bool :=
  match e with
  | Stdout (WarningLine _) => true
  | _ => false
  end.

(** The (path, method, operation) triples of a document, in the order the
    two outer loops visit them. *)
Definition operations_of (spec : json) : list (string * string * json) :=
  match spec with
  | JObject m =>
      match assoc "paths" m with
      | Some (JObject paths) =>
          flat_map (fun '(path, path_data) =>
                      match path_data with
                      | JObject operations =>
                          map (fun '(method, operation) => (path, method, operation))
                            operations
                      | _ => []
                      end) paths
      | _ => []
      end
  | _ => []
  end.

Definition declared_parameters (operation : json) : list json :=
  match operation with
  | JObject m =>
      match assoc "parameters" m with
      | Some (JArray l) => l
      | _ => []
      end
  | _ => []
  end.

(** A parameter descriptor whose location is [path]. *)
Definition in_path (p : json) : bool :=
  match p with
  | JObject m =>
      match assoc "in" m with
      | Some location => eq_str location "path"
      | None => false
      end
  | _ => false
  end.

(** An operation with at least one parameter whose location is [path]. *)
Definition fuzzable (operation : json) : bool :=
  existsb in_path (declared_parameters operation).

Definition fuzzable_pairs (spec : json) : list (string * string * json) :=
  filter (fun '(_, _, operation) => fuzzable operation) (operations_of spec).

(** The data model of a specification: an object whose [paths], when
    present, maps every path template to an object of operations; every
    operation is an object whose [parameters], when present, is an array of
    objects, those located in the path having a [name]. *)
Definition is_object (v : json) : bool :=
  match v with JObject _ => true | _ => false end.

Definition has_name (p : json) : bool :=
  match p with
  | JObject m => match assoc "name" m with Some _ => true | None => false end
  | _ => false
  end.

Definition well_formed_operation (operation : json) : bool :=
  match operation with
  | JObject m =>
      match assoc "parameters" m with
      | None => true
      | Some (JArray l) =>
          forallb (fun p => is_object p && (negb (in_path p) || has_name p)) l
      | Some _ => false
      end
  | _ => false
  end.

Definition well_formed_spec (spec : json) : bool :=
  match spec with
  | JObject m =>
      match assoc "paths" m with
      | None => true
      | Some (JObject paths) =>
          forallb (fun '(_, path_data) =>
                     match path_data with
                     | JObject operations =>
                         forallb (fun '(_, operation) => well_formed_operation operation)
                           operations
                     | _ => false
                     end) paths
      | Some _ => false
      end
  | _ => false
  end.

(** What [save_results] adds to the effects of a run. *)
Definition persisted {W : World} (pathList : list string) : list event :=
  match pathList with
  | [] => [Stdout NoVulnerable]
  | _ :: _ =>
      let filename := ("results_" ++ strftime now ++ ".txt")%string in
      [FileWritten filename (results_content pathList);
       Stdout (ResultsSaved filename)]
  end.

(** The URL one payload is sent to on one (path, method) pair. *)
Definition target_of {W : World} (base_url path : string) (operation : json)
    (payload : string) : outcome string :=
  match path_params_of operation with
  | Raised e => Raised e
  | Done path_params =>
      match substitute path_params payload path with
      | Raised e => Raised e
      | Done fuzzed_path => urljoin base_url (PyStr.lstrip "/" fuzzed_path)
      end
  end.

Definition target {W : World} (base_url path : string) (operation : json)
    (payload : string) : string :=
  match target_of base_url path operation payload with
  | Done full_url => full_url
  | Raised _ => EmptyString
  end.

(** [urljoin] accepts every URL the loop builds. *)
Definition resolvable {W : World} (base_url : string) (spec : json) : bool :=
  forallb (fun '(path, _, operation) =>
             forallb (fun payload =>
                        match target_of base_url path operation payload with
                        | Done _ => true
                        | Raised _ => false
                        end) FUZZ_PAYLOADS)
    (fuzzable_pairs spec).

(** A server that never lets an exception other than a
    [RequestException] escape. *)
Definition answers {W : World} : Prop :=
  forall count method full_url e, server count method full_url <> Raises e.

(** ** Properties of computations *)

(** A property of states that a computation keeps, whether it returns or
    raises. *)
Definition preserves {A} (I : state -> Prop) (m : M A) : Prop :=
  forall s, I s -> I (fst (m s)).



(** The findings are pairwise distinct, and they grow by the paths of the
    warnings printed, in the order of the warnings. *)
Definition grows_from (findings warnings : list string) (s : state) : Prop :=
  NoDup (PositiveResponses s)
  /\ exists added,
       PositiveResponses s = findings ++ added
       /\ warnings_of (trace s) = warnings ++ added.

(** The findings stay as they are when no response has status 200. *)
Definition findings_are (findings : list string) (s : state) : Prop :=
  PositiveResponses s = findings.

(** ** Path templates *)



Definition brace_free (s : string) : bool :=
  PyStr.forallb (fun c => negb (Ascii.eqb c "{") && negb (Ascii.eqb c "}")) s.





(** ** What the specification describes where the program differs *)

(** The file content the specification describes: the header line, the
    separator line, and the paths immediately after them. *)
Definition claimed_results_content (pathList : list string) : string :=
  (results_header ++ String PyStr.LF ""
   ++ PyStr.repeat "=" 50 ++ String PyStr.LF ""
   ++ PyStr.join (String PyStr.LF "") pathList)%string.

(** The configuration the specification describes: for every key the
    command-line value, else the value of the configuration file when the
    file parses to an object that has the key, else the built-in default. *)
Definition claimed_value (cli : option string) (file : file_state) (key : string)
  : json :=
  match given cli with
  | Some v => JString v
  | None =>
      match file with
      | Parsed (JObject m) =>
          match assoc key m with
          | Some v => v
          | None => match py_index DEFAULT_CONFIG key with
                    | Done v => v
                    | Raised _ => JNull
                    end
          end
      | _ => match py_index DEFAULT_CONFIG key with
             | Done v => v
             | Raised _ => JNull
             end
      end
  end.

Definition claimed_configuration (a : args) (file : file_state) : configuration :=
  mkConfiguration (claimed_value (arg_url a) file "base_url")
    (claimed_value (arg_file a) file "openapi_file")
    (claimed_value None file "zap_proxy").

(** The normalisation the specification describes: one leading slash, when
    there is one, is removed. *)
Definition strip_single_slash (s : string) : string :=
  match s with
  | String c r => if Ascii.eqb c "/" then r else s
  | EmptyString => s
  end.

(** A command-line value, or else [v]. *)
Definition or_else (cli : option string) (v : json) : json :=
  match given cli with
  | Some u => JString u
  | None => v
  end.

(** ** Further observations *)

(** A value for [key] is at hand: from the command line, or else in the
    items of the configuration object. *)
Definition supplied (cli : option string) (m : list (string * json)) (key : string)
  : bool :=
  match given cli with
  | Some _ => true
  | None => match assoc key m with Some _ => true | None => false end
  end.

(** A date and time whose fields have at most two digits, the year counted
    within its century. *)
Definition two_digit_fields (t : datetime) : bool :=
  ((hour t <? 100) && (minute t <? 100) && (second t <? 100)
   && (day t <? 100) && (month t <? 100))%nat.

(** The numbers printed in the request lines, in order. *)
Fixpoint request_numbers (t : list event) : list nat :=
  match t with
  | [] => []
  | Stdout (RequestLine count _ _) :: r => count :: request_numbers r
  | _ :: r => request_numbers r
  end.

(** A computation that, however it ends, has sent some number [k] of
    requests, has announced each with the next number from the counter on,
    and has advanced the counter by [k]. *)
Definition numbered {A} (m : M A) : Prop :=
  forall s, exists k,
    RequestsCount (fst (m s)) = RequestsCount s + k
    /\ request_numbers (trace (fst (m s)))
       = request_numbers (trace s) ++ seq (RequestsCount s) k
    /\ List.length (requests_of (trace (fst (m s))))
       = List.length (requests_of (trace s)) + k.

(** Lines 84 to 127: the two outer loops of [fuzz_path_parameters], between
    the first and the last [print]. *)
Definition fuzz_loops {W : World} (spec : json) (base_url : string) : M unit :=
  paths <- lift (py_get spec "paths" (JObject [])) ;;
  items <- lift (py_items paths) ;;
  for_each items (fun '(path, path_data) =>
    operations <- lift (py_items path_data) ;;
    for_each operations (fun '(method, operation) =>
      fuzz_operation base_url path method operation)).

(** The findings after the requests [sent] (path template, method and URL
    of each), the first of them being request number [count]: a template is
    recorded when the server answers 200 to one of its requests. *)
Fixpoint absorb {W : World} (count : nat) (sent : list (string * string * string))
    (findings : list string) : list string :=
  match sent with
  | [] => findings
  | (path, method, full_url) :: r =>
      absorb (S count) r
        (match server count method full_url with
         | Response status_code =>
             if Z.eqb status_code 200 then recorded path findings else findings
         | _ => findings
         end)
  end.

(** The requests of one (path, method) pair, with the template they fuzz. *)
Definition planned_for {W : World} (base_url : string) (x : string * string * json)
  : list (string * string * string) :=
  let '(path, method, operation) := x in
  map (fun payload => (path, method, target base_url path operation payload))
    FUZZ_PAYLOADS.

(** The requests of a whole document, in the order of the loop. *)
Definition planned {W : World} (base_url : string) (spec : json)
  : list (string * string * string) :=
  flat_map (planned_for base_url) (fuzzable_pairs spec).

(** A computation that returns normally after sending exactly the requests
    [sent] and recording what the server answered to them. *)
Definition runs {W : World} (m : M unit) (sent : list (string * string * string))
  : Prop :=
  forall s, exists s',
    m s = (s', Done tt)
    /\ requests_of (trace s')
       = requests_of (trace s) ++ map (fun '(_, method, full_url) => (method, full_url)) sent
    /\ RequestsCount s' = RequestsCount s + List.length sent
    /\ PositiveResponses s' = absorb (RequestsCount s) sent (PositiveResponses s).

(** A computation that raises [e] after sending exactly the requests [sent]
    and recording what the server answered to them. *)
Definition aborts {W : World} (m : M unit) (sent : list (string * string * string))
    (e : exn) : Prop :=
  forall s, exists s',
    m s = (s', Raised e)
    /\ requests_of (trace s')
       = requests_of (trace s) ++ map (fun '(_, method, full_url) => (method, full_url)) sent
    /\ PositiveResponses s' = absorb (RequestsCount s) sent (PositiveResponses s).

(** A document with the path items [items] and nothing else. *)
Definition document_of (items : list (string * json)) : json :=
  JObject [("paths", JObject items)].

(** A value a [for] statement can iterate over. *)
Definition iterable (v : json) : bool :=
  match v with
  | JArray _ | JObject _ | JString _ => true
  | _ => false
  end.



(** A computation that, however it ends, has sent the first [j] of the
    requests [sent], in order, has recorded what the server answered to
    them, and has sent them all when it returns. *)
Definition partly {W : World} (m : M unit) (sent : list (string * string * string))
  : Prop :=
  forall s, exists j,
    j <= List.length sent
    /\ requests_of (trace (fst (m s)))
       = requests_of (trace s)
         ++ map (fun '(_, method, full_url) => (method, full_url)) (firstn j sent)
    /\ RequestsCount (fst (m s)) = RequestsCount s + j
    /\ PositiveResponses (fst (m s))
       = absorb (RequestsCount s) (firstn j sent) (PositiveResponses s)
    /\ (snd (m s) = Done tt -> j = List.length sent).

(* ================================================================== *)
(** * Sample runs *)

Module Sample.

(** A document with one operation that has two path parameters, one
    operation that has one, and one operation without parameters. *)
Definition petstore : json :=
  JObject
    [("openapi", JString "3.0.0");
     ("paths",
      JObject
        [("/users/{id}/orders/{orderId}",
          JObject
            [("get",
              JObject
                [("parameters",
                  JArray
                    [JObject [("name", JString "id"); ("in", JString "path")];
                     JObject [("name", JString "orderId"); ("in", JString "path")];
                     JObject [("name", JString "verbose"); ("in", JString "query")]])])]);
         ("/items/{itemId}",
          JObject
            [("get",
              JObject
                [("parameters",
                  JArray [JObject [("name", JString "itemId"); ("in", JString "path")]])]);
             ("delete",
              JObject
                [("parameters",
                  JArray [JObject [("name", JString "itemId"); ("in", JString "path")]])])]);
         ("/health", JObject [("get", JObject [("summary", JString "ping")])])])].

(** A server that answers 200 on every URL ending in [/1] or [/0] and 404
    elsewhere. *)
Fixpoint ends_with_id (s : string) : bool :=
  match s with
  | EmptyString => false
  | String c r =>
      match r with
      | String d EmptyString =>
          Ascii.eqb c "/" && (Ascii.eqb d "1" || Ascii.eqb d "0")
      | _ => ends_with_id r
      end
  end.

Definition files (name : string) : file_state :=
  if String.eqb name "openapi.json" then Parsed petstore
  else if String.eqb name "broken.json" then InvalidJson
  else if String.eqb name "list.json" then Parsed (JArray [JInt 1])
  else if String.eqb name "empty.json" then Parsed (JObject [])
  else if String.eqb name "info.json"
       then Parsed (JObject [("openapi", JString "3.0.0")])
  else if String.eqb name "config.json"
       then Parsed (JObject [("base_url", JString "http://localhost:5000");
                             ("openapi_file", JString "api.json");
                             ("zap_proxy", JString "http://127.0.0.1:8090")])
  else if String.eqb name "partial.json"
       then Parsed (JObject [("base_url", JString "http://localhost:5000")])
  else NoFile.

Definition clock : datetime := mkDatetime 9 5 30 3 11 2026.

Definition id_parameter : json :=
  JObject [("name", JString "id"); ("in", JString "path")].

(** A document whose only template is [/], with a path parameter. *)
Definition root_only : json :=
  JObject
    [("paths",
      JObject [("/", JObject [("get", JObject [("parameters", JArray [id_parameter])])])])].

(** A document whose template starts with two slashes. *)
Definition double_slash : json :=
  JObject
    [("paths",
      JObject
        [("//items/{id}",
          JObject [("get", JObject [("parameters", JArray [id_parameter])])])])].

Definition lenient : World := {|
  server := fun _ _ full_url => Response (if ends_with_id full_url then 200 else 404)%Z;
  fs_read := files;
  now := clock;
  str_other := fun _ => EmptyString;
  netloc_check := fun _ => true
|}.

(** The same world with a server that never answers 200. *)
Definition strict : World := {|
  server := fun _ _ _ => Response 404%Z;
  fs_read := files;
  now := clock;
  str_other := fun _ => EmptyString;
  netloc_check := fun _ => true
|}.



(** The same world with a user who interrupts the third request. *)
Definition interrupted : World := {|
  server := fun count _ full_url =>
              if (count =? 3)%nat then Raises KeyboardInterrupt
              else Response (if ends_with_id full_url then 200 else 404)%Z;
  fs_read := files;
  now := clock;
  str_other := fun _ => EmptyString;
  netloc_check := fun _ => true
|}.

(** An operation whose path parameter has no name. *)
Definition nameless_operation : json :=
  JObject [("parameters", JArray [JObject [("in", JString "path")]])].

Definition item_parameter : json :=
  JObject [("name", JString "itemId"); ("in", JString "path")].

(** A path item as OpenAPI allows it: the parameters shared by its
    operations are a member of the path item, beside the operations. *)
Definition shared_parameters : json :=
  JObject
    [("paths",
      JObject
        [("/items/{itemId}",
          JObject
            [("get", JObject [("parameters", JArray [item_parameter])]);
             ("parameters", JArray [item_parameter]);
             ("delete", JObject [("parameters", JArray [item_parameter])])])])].

(** An operation that declares a path parameter its template does not
    mention. *)
Definition stray_parameter : json :=
  JObject [("parameters", JArray [id_parameter])].

End Sample.

(* ================================================================== *)
(** * Reasoning about computations *)

Lemma preserves_ret {A} (I : state -> Prop) (a : A) : preserves I (ret a).
Proof. intros s H; exact H. Qed.

Lemma preserves_raise {A} (I : state -> Prop) (e : exn) :
  preserves I (@raise A e).
Proof. intros s H; exact H. Qed.

Lemma preserves_lift {A} (I : state -> Prop) (o : outcome A) :
  preserves I (lift o).
Proof. intros s H; exact H. Qed.

Lemma preserves_bind {A B} (I : state -> Prop) (m : M A) (k : A -> M B) :
  preserves I m -> (forall a, preserves I (k a)) -> preserves I (bind m k).
Proof.
  intros Hm Hk s Hs. unfold bind.
  specialize (Hm s Hs). destruct (m s) as [s' [a | e]]; simpl in *.
  - apply Hk; assumption.
  - assumption.
Qed.

Lemma preserves_for_each {A} (I : state -> Prop) (l : list A) (body : A -> M unit) :
  (forall x, In x l -> preserves I (body x)) -> preserves I (for_each l body).
Proof.
  induction l as [| x r IH]; intros H; simpl.
  - apply preserves_ret.
  - apply preserves_bind.
    + apply H; left; reflexivity.
    + intros _. apply IH. intros y Hy. apply H; right; assumption.
Qed.

Lemma preserves_try_finally {A} (I : state -> Prop) (body : M A) (final : M unit) :
  preserves I body -> preserves I final -> preserves I (try_finally body final).
Proof.
  intros Hb Hf s Hs. unfold try_finally.
  specialize (Hb s Hs). destruct (body s) as [s1 r]; simpl in Hb.
  specialize (Hf s1 Hb). destruct (final s1) as [s2 [[] | e]]; exact Hf.
Qed.

Lemma preserves_except (I : state -> Prop) (body handler : M unit) :
  preserves I body -> preserves I handler ->
  preserves I (except_KeyboardInterrupt body handler).
Proof.
  intros Hb Hh s Hs. unfold except_KeyboardInterrupt.
  specialize (Hb s Hs). destruct (body s) as [s1 [a | e]]; simpl in Hb.
  - exact Hb.
  - destruct e; try exact Hb. apply Hh; exact Hb.
Qed.

Lemma warnings_of_app (t u : list event) :
  warnings_of (t ++ u) = warnings_of t ++ warnings_of u.
Proof.
  induction t as [| e t IH]; simpl; [reflexivity |].
  destruct e as [[] | |]; simpl; rewrite IH; reflexivity.
Qed.

Lemma requests_of_app (t u : list event) :
  requests_of (t ++ u) = requests_of t ++ requests_of u.
Proof.
  induction t as [| e t IH]; simpl; [reflexivity |].
  destruct e; simpl; rewrite IH; reflexivity.
Qed.

Lemma warnings_of_other (e : event) :
  is_warning e = false -> warnings_of [e] = [].
Proof. destruct e as [[] | |]; simpl; intros H; try reflexivity; discriminate. Qed.

(** ** Properties kept by the whole program *)

(** A property of states is kept by every run as soon as it is kept by the
    three ways the program changes its state: an effect that is not a
    warning, an update of the counter, and the classification of a response
    the server can give. *)
Section Invariants.

Context {W : World}.
Variable I : state -> Prop.

Hypothesis I_emit : forall e, is_warning e = false -> preserves I (emit e).
Hypothesis I_count : forall n, preserves I (set_count n).
Hypothesis I_classify :
  forall count method full_url status_code path,
    server count method full_url = Response status_code ->
    preserves I (classify path status_code).

Lemma I_print (l : line) :
  (forall p, l <> WarningLine p) -> preserves I (print l).
Proof.
  intros H. apply I_emit. destruct l; try reflexivity. exfalso; eapply H; reflexivity.
Qed.

Lemma preserves_send (path method full_url : string) :
  preserves I (send path method full_url).
Proof.
  unfold send. apply preserves_try_finally.
  - intros s Hs.
    assert (H1 : I (fst (emit (Request method full_url) s)))
      by (apply I_emit; [reflexivity | exact Hs]).
    destruct (server (RequestsCount s) method full_url) as [code | msg | e] eqn:E.
    + revert H1. generalize (fst (emit (Request method full_url) s)). intros s1 H1.
      revert s1 H1. apply preserves_bind.
      * apply I_print; discriminate.
      * intros _. eapply I_classify; exact E.
    + apply I_print; [discriminate | exact H1].
    + exact H1.
  - intros s Hs. exact (I_count _ s Hs).
Qed.

Lemma preserves_fuzz_one base_url path method path_params payload :
  preserves I (fuzz_one base_url path method path_params payload).
Proof.
  unfold fuzz_one.
  apply preserves_bind; [apply preserves_lift | intros fuzzed_path].
  apply preserves_bind; [apply preserves_lift | intros full_url].
  apply preserves_bind.
  - intros s Hs. apply I_print; [discriminate | exact Hs].
  - intros _. apply preserves_send.
Qed.

Lemma preserves_fuzz_operation base_url path method operation :
  preserves I (fuzz_operation base_url path method operation).
Proof.
  unfold fuzz_operation.
  apply preserves_bind; [apply preserves_lift | intros path_params].
  destruct path_params; [apply preserves_ret |].
  apply preserves_for_each. intros payload _. apply preserves_fuzz_one.
Qed.

Lemma preserves_fuzz_path_parameters spec base_url :
  preserves I (fuzz_path_parameters spec base_url).
Proof.
  unfold fuzz_path_parameters.
  apply preserves_bind; [apply I_print; discriminate | intros _].
  apply preserves_bind; [apply I_count | intros _].
  apply preserves_bind; [apply preserves_lift | intros paths].
  apply preserves_bind; [apply preserves_lift | intros items].
  apply preserves_bind.
  - apply preserves_for_each. intros [path path_data] _.
    apply preserves_bind; [apply preserves_lift | intros operations].
    apply preserves_for_each. intros [method operation] _.
    apply preserves_fuzz_operation.
  - intros _ s Hs. apply I_print; [discriminate | exact Hs].
Qed.

Lemma preserves_load_openapi_spec file_path :
  preserves I (load_openapi_spec file_path).
Proof.
  unfold load_openapi_spec.
  apply preserves_bind; [apply I_print; discriminate | intros _].
  destruct (fs_read file_path).
  - apply preserves_bind; [apply I_print; discriminate | intros _; apply preserves_ret].
  - apply preserves_raise.
  - apply preserves_raise.
  - apply preserves_bind; [apply I_print; discriminate | intros _; apply preserves_ret].
  - apply preserves_ret.
Qed.

Lemma preserves_save_results pathList : preserves I (save_results pathList).
Proof.
  unfold save_results. destruct pathList.
  - apply I_print; discriminate.
  - apply preserves_bind; [apply I_emit; reflexivity | intros _].
    apply I_print; discriminate.
Qed.

Lemma preserves_driver openapi_file base_url :
  preserves I (driver openapi_file base_url).
Proof.
  unfold driver. apply preserves_try_finally.
  - apply preserves_except.
    + unfold load_and_fuzz.
      apply preserves_bind; [apply preserves_load_openapi_spec | intros spec].
      destruct (truthy spec);
        [apply preserves_fuzz_path_parameters | apply preserves_ret].
    + apply I_print; discriminate.
  - intros s Hs. apply preserves_save_results; exact Hs.
Qed.

End Invariants.

(* ================================================================== *)
(** * Findings *)

Section Findings.

Context {W : World}.

Lemma existsb_eqb_In (x : string) (l : list string) :
  existsb (String.eqb x) l = true <-> In x l.
Proof.
  rewrite existsb_exists. split.
  - intros [y [Hy E]]. apply String.eqb_eq in E. subst; assumption.
  - intros H. exists x. split; [assumption | apply String.eqb_refl].
Qed.

Lemma NoDup_snoc (x : string) (l : list string) :
  NoDup l -> ~ In x l -> NoDup (l ++ [x]).
Proof.
  intros Hl Hx. induction Hl as [| y l Hy Hl IH]; simpl.
  - constructor; [intros [] | constructor].
  - constructor.
    + rewrite in_app_iff. intros [H | [H | []]].
      * contradiction.
      * apply Hx. left. symmetry. exact H.
    + apply IH. intros H. apply Hx. right. exact H.
Qed.

Lemma NoDup_recorded (path : string) (findings : list string) :
  NoDup findings -> NoDup (recorded path findings).
Proof.
  intros H. unfold recorded.
  destruct (existsb (String.eqb path) findings) eqn:E; [exact H |].
  apply NoDup_snoc; [exact H |].
  intros Hin. apply existsb_eqb_In in Hin. congruence.
Qed.

(** What [classify] does to the state, case by case. *)
Lemma classify_spec (path : string) (status_code : Z) (s : state) :
  classify path status_code s =
    if (status_code =? 200)%Z then
      if existsb (String.eqb path) (PositiveResponses s) then (s, Done tt)
      else (mkState (PositiveResponses s ++ [path]) (RequestsCount s)
              (trace s ++ [Stdout (WarningLine path)]), Done tt)
    else (s, Done tt).
Proof.
  unfold classify. destruct (status_code =? 200)%Z; [| reflexivity].
  destruct (existsb (String.eqb path) (PositiveResponses s)); reflexivity.
Qed.

Lemma classify_findings (path : string) (status_code : Z) (s : state) :
  PositiveResponses (fst (classify path status_code s)) =
    if (status_code =? 200)%Z then recorded path (PositiveResponses s)
    else PositiveResponses s.
Proof.
  rewrite classify_spec. unfold recorded.
  destruct (status_code =? 200)%Z; [| reflexivity].
  destruct (existsb (String.eqb path) (PositiveResponses s)); reflexivity.
Qed.

(** One request that the server answers: the outcome of [send]. *)
Lemma send_response (path method full_url : string) (status_code : Z) (s : state) :
  server (RequestsCount s) method full_url = Response status_code ->
  exists s',
    send path method full_url s = (s', Done tt)
    /\ PositiveResponses s' =
         (if (status_code =? 200)%Z then recorded path (PositiveResponses s)
          else PositiveResponses s)
    /\ RequestsCount s' = RequestsCount s + 1
    /\ (status_code <> 200%Z ->
        trace s' = trace s ++ [Request method full_url; Stdout (StatusLine status_code)]).
Proof.
  intros E. unfold send, try_finally. rewrite E.
  unfold bind, print, emit; simpl. rewrite classify_spec; simpl.
  destruct (status_code =? 200)%Z eqn:C.
  - unfold recorded.
    destruct (existsb (String.eqb path) (PositiveResponses s)); simpl;
      eexists; (split; [reflexivity |]); simpl;
      (split; [reflexivity | split; [reflexivity |]]);
      intros H; apply Z.eqb_eq in C; contradiction.
  - simpl. eexists. split; [reflexivity |]. simpl.
    split; [reflexivity | split; [reflexivity |]].
    intros _. rewrite <- app_assoc. reflexivity.
Qed.

Lemma grows_from_emit findings warnings e :
  is_warning e = false -> preserves (grows_from findings warnings) (emit e).
Proof.
  intros He s [Hn [added [Hf Hw]]]. split; [exact Hn |].
  exists added. split; [exact Hf |]. simpl.
  rewrite warnings_of_app, (warnings_of_other e He), app_nil_r. exact Hw.
Qed.

Lemma grows_from_count findings warnings n :
  preserves (grows_from findings warnings) (set_count n).
Proof. intros s H. exact H. Qed.

Lemma grows_from_classify findings warnings path status_code :
  preserves (grows_from findings warnings) (classify path status_code).
Proof.
  intros s [Hn [added [Hf Hw]]]. rewrite classify_spec.
  destruct (status_code =? 200)%Z; [| split; [exact Hn | exists added; tauto]].
  destruct (existsb (String.eqb path) (PositiveResponses s)) eqn:E;
    [split; [exact Hn | exists added; tauto] |].
  split; simpl.
  - apply NoDup_snoc; [exact Hn |].
    intros Hin. apply existsb_eqb_In in Hin. congruence.
  - exists (added ++ [path]). rewrite Hf, warnings_of_app, Hw, !app_assoc.
    split; reflexivity.
Qed.

Lemma grows_from_start (s : state) :
  NoDup (PositiveResponses s) ->
  grows_from (PositiveResponses s) (warnings_of (trace s)) s.
Proof.
  intros H. split; [exact H |]. exists []. rewrite !app_nil_r. split; reflexivity.
Qed.

Lemma findings_are_classify findings path status_code :
  status_code <> 200%Z ->
  preserves (findings_are findings) (classify path status_code).
Proof.
  intros H s Hs. unfold findings_are. rewrite classify_findings.
  destruct (status_code =? 200)%Z eqn:C; [| exact Hs].
  apply Z.eqb_eq in C. contradiction.
Qed.

(** C1. During the fuzz loop a path template is recorded as a finding only
    on a response whose status code is exactly 200.  For every request the
    server answers, [send] returns normally; the finding list becomes
    [recorded path] of itself when the status code is 200 and is unchanged
    for every other status code, in which case the only effects are the
    request and the status line (no error line, no warning).  And a whole
    fuzz loop against a server that never answers 200 leaves the finding
    list as it was, whatever the document. *)
Theorem only_status_200_is_recorded :
  (forall path method full_url status_code s,
     server (RequestsCount s) method full_url = Response status_code ->
     exists s',
       send path method full_url s = (s', Done tt)
       /\ PositiveResponses s' =
            (if (status_code =? 200)%Z then recorded path (PositiveResponses s)
             else PositiveResponses s)
       /\ (status_code <> 200%Z ->
           trace s' =
             trace s ++ [Request method full_url; Stdout (StatusLine status_code)]))
  /\ (forall spec base_url s,
        (forall count method full_url,
           server count method full_url <> Response 200) ->
        PositiveResponses (fst (fuzz_path_parameters spec base_url s))
          = PositiveResponses s).
Proof.
  split.
  - intros path method full_url status_code s E.
    destruct (send_response path method full_url status_code s E)
      as [s' [H1 [H2 [_ H4]]]].
    exists s'. auto.
  - intros spec base_url s Hno.
    apply (preserves_fuzz_path_parameters (findings_are (PositiveResponses s))).
    + intros e _ s0 H0. exact H0.
    + intros n s0 H0. exact H0.
    + intros count method full_url status_code path E.
      apply findings_are_classify. intros ->. exact (Hno _ _ _ E).
    + reflexivity.
Qed.

(** C4. The finding list never holds a path template twice, and findings
    are kept in the order in which each path was first flagged: from a state
    whose findings are pairwise distinct, the fuzz loop and the whole driver
    end (normally, interrupted after any request, or on an error) in a state
    whose findings are pairwise distinct and consist of the earlier findings
    followed by the paths of the warnings printed meanwhile, in the order of
    the warnings. *)
Theorem findings_distinct_in_order (spec : json) (openapi_file base_url : string)
    (s : state) :
  NoDup (PositiveResponses s) ->
  (let s' := fst (fuzz_path_parameters spec base_url s) in
   NoDup (PositiveResponses s')
   /\ exists added,
        PositiveResponses s' = PositiveResponses s ++ added
        /\ warnings_of (trace s') = warnings_of (trace s) ++ added)
  /\ (let s' := fst (driver openapi_file base_url s) in
      NoDup (PositiveResponses s')
      /\ exists added,
           PositiveResponses s' = PositiveResponses s ++ added
           /\ warnings_of (trace s') = warnings_of (trace s) ++ added).
Proof.
  intros H. split.
  - apply (preserves_fuzz_path_parameters
             (grows_from (PositiveResponses s) (warnings_of (trace s)))).
    + apply grows_from_emit.
    + apply grows_from_count.
    + intros; apply grows_from_classify.
    + apply grows_from_start; exact H.
  - apply (preserves_driver
             (grows_from (PositiveResponses s) (warnings_of (trace s)))).
    + apply grows_from_emit.
    + apply grows_from_count.
    + intros; apply grows_from_classify.
    + apply grows_from_start; exact H.
Qed.

End Findings.

(* ================================================================== *)
(** * The requests of the fuzz loop *)

Section Requests.

Context {W : World}.







(** ** The parameters of a well-formed operation *)

Lemma select_path_params_objects (l : list json) :
  forallb is_object l = true -> select_path_params l = Done (filter in_path l).
Proof.
  induction l as [| p r IH]; simpl; [reflexivity |].
  intros H. apply andb_true_iff in H. destruct H as [Hp Hr].
  rewrite (IH Hr). destruct p; try discriminate. simpl.
  destruct (assoc "in" m) as [location |]; reflexivity.
Qed.

Lemma path_params_of_well_formed (operation : json) :
  well_formed_operation operation = true ->
  path_params_of operation = Done (filter in_path (declared_parameters operation)).
Proof.
  destruct operation; try discriminate. simpl. unfold path_params_of. simpl.
  destruct (assoc "parameters" m) as [[| | | | | l |] |]; try discriminate.
  - intros H. apply select_path_params_objects.
    rewrite forallb_forall in *. intros p Hp.
    specialize (H p Hp). apply andb_true_iff in H. tauto.
  - reflexivity.
Qed.

Lemma substitute_named (path_params : list json) (payload fuzzed_path : string) :
  forallb has_name path_params = true ->
  exists result, substitute path_params payload fuzzed_path = Done result.
Proof.
  revert fuzzed_path.
  induction path_params as [| p r IH]; simpl; intros fuzzed_path H.
  - eexists; reflexivity.
  - apply andb_true_iff in H. destruct H as [Hp Hr].
    destruct p; try discriminate. simpl in *.
    destruct (assoc "name" m); [| discriminate]. apply IH; exact Hr.
Qed.

Lemma fuzzable_filter (operation : json) :
  fuzzable operation
  = negb (match filter in_path (declared_parameters operation) with
          | [] => true
          | _ => false
          end).
Proof.
  unfold fuzzable. induction (declared_parameters operation) as [| p r IH]; simpl.
  - reflexivity.
  - destruct (in_path p); simpl; [reflexivity | exact IH].
Qed.

Lemma flat_map_singleton {A B} (g : A -> B) (l : list A) :
  flat_map (fun x => [g x]) l = map g l.
Proof. induction l; simpl; congruence. Qed.

Lemma flat_map_filter {A B} (p : A -> bool) (g : A -> list B) (l : list A) :
  flat_map (fun x => if p x then g x else []) l = flat_map g (filter p l).
Proof.
  induction l as [| x r IH]; simpl; [reflexivity |].
  destruct (p x); simpl; rewrite IH; reflexivity.
Qed.

Lemma flat_map_nested {A B C} (f : B -> list C) (g : A -> list B) (l : list A) :
  flat_map f (flat_map g l) = flat_map (fun x => flat_map f (g x)) l.
Proof.
  induction l as [| x r IH]; simpl; [reflexivity |].
  rewrite flat_map_app, IH. reflexivity.
Qed.




Lemma resolvable_target base_url spec (paths : list (string * json))
    path operations method operation payload :
  operations_of spec =
    flat_map (fun '(path, path_data) =>
                match path_data with
                | JObject operations =>
                    map (fun '(method, operation) => (path, method, operation))
                      operations
                | _ => []
                end) paths ->
  resolvable base_url spec = true ->
  In (path, JObject operations) paths ->
  In (method, operation) operations ->
  fuzzable operation = true ->
  In payload FUZZ_PAYLOADS ->
  exists full_url, target_of base_url path operation payload = Done full_url.
Proof.
  intros Hops Hres Hpath Hop Hf Hpay.
  unfold resolvable, fuzzable_pairs in Hres. rewrite forallb_forall in Hres.
  assert (Hin : In (path, method, operation)
                  (filter (fun '(_, _, operation) => fuzzable operation)
                     (operations_of spec))).
  { apply filter_In. split; [| exact Hf].
    rewrite Hops. apply in_flat_map. exists (path, JObject operations).
    split; [exact Hpath |]. apply in_map_iff. exists (method, operation). auto. }
  specialize (Hres _ Hin). cbv beta iota in Hres. rewrite forallb_forall in Hres.
  specialize (Hres _ Hpay).
  destruct (target_of base_url path operation payload) as [u | e];
    [exists u; reflexivity | discriminate].
Qed.


End Requests.

(* ================================================================== *)
(** * Path templates *)

Section Templates.

Context {W : World}.


Lemma brace_free_cons (c : ascii) (s : string) :
  brace_free (String c s) = true ->
  Ascii.eqb c "{" = false /\ Ascii.eqb c "}" = false /\ brace_free s = true.
Proof.
  unfold brace_free. simpl. intros H.
  apply andb_true_iff in H. destruct H as [H1 H2].
  apply andb_true_iff in H1. destruct H1 as [Ha Hb].
  apply negb_true_iff in Ha, Hb. auto.
Qed.

(** Text without an opening brace is copied. *)
Lemma replace_literal (name new text rest : string) :
  brace_free text = true ->
  PyStr.replace_from (String "{" name) new 0 (text ++ rest)
  = (text ++ PyStr.replace_from (String "{" name) new 0 rest)%string.
Proof.
  induction text as [| c text IH]; intros H; [reflexivity |].
  apply brace_free_cons in H. destruct H as [Ha [_ Hs]].
  change (String c text ++ rest)%string with (String c (text ++ rest)%string).
  cbn [PyStr.replace_from].
  change (PyStr.startswith (String "{" name) (String c (text ++ rest)))
    with (Ascii.eqb "{" c && PyStr.startswith name (text ++ rest)).
  rewrite Ascii.eqb_sym, Ha. cbn [andb]. rewrite IH by exact Hs. reflexivity.
Qed.












End Templates.

(* ================================================================== *)
(** * The driver *)

Section Driver.

Context {W : World}.

Lemma save_results_spec (pathList : list string) (s : state) :
  save_results pathList s
  = (mkState (PositiveResponses s) (RequestsCount s) (trace s ++ persisted pathList),
     Done tt).
Proof.
  destruct pathList as [| p r]; unfold save_results, persisted.
  - reflexivity.
  - unfold bind, print, emit. simpl. rewrite <- app_assoc. reflexivity.
Qed.

(** The driver in terms of the body of its [try] statement. *)
Lemma driver_spec (openapi_file base_url : string) (s : state) :
  let s1 := fst (load_and_fuzz openapi_file base_url s) in
  let r1 := snd (load_and_fuzz openapi_file base_url s) in
  driver openapi_file base_url s
  = (mkState (PositiveResponses s1) (RequestsCount s1)
       (trace s1
        ++ match r1 with
           | Raised KeyboardInterrupt => [Stdout Interrupted]
           | _ => []
           end
        ++ persisted (PositiveResponses s1)),
     match r1 with
     | Raised KeyboardInterrupt => Done tt
     | _ => r1
     end).
Proof.
  simpl. unfold driver, try_finally, except_KeyboardInterrupt.
  destruct (load_and_fuzz openapi_file base_url s) as [s1 [[] | e]]; simpl.
  - rewrite save_results_spec. reflexivity.
  - destruct e; try (rewrite save_results_spec; reflexivity).
    unfold print, emit. rewrite save_results_spec. simpl.
    rewrite <- app_assoc. reflexivity.
Qed.

Lemma load_and_fuzz_failure (openapi_file base_url : string) (s : state) :
  fs_read openapi_file = NoFile \/ fs_read openapi_file = InvalidJson ->
  load_and_fuzz openapi_file base_url s
  = (mkState (PositiveResponses s) (RequestsCount s)
       (trace s ++ [Stdout (LoadingSpec openapi_file);
                    Stdout (match fs_read openapi_file with
                            | NoFile => FileNotFound openapi_file
                            | _ => InvalidFormat openapi_file
                            end)]),
     Done tt).
Proof.
  intros [E | E]; unfold load_and_fuzz, load_openapi_spec, bind, print, emit;
    rewrite E; simpl; rewrite <- app_assoc; reflexivity.
Qed.

Lemma load_and_fuzz_falsy (openapi_file base_url : string) (doc : json) (s : state) :
  fs_read openapi_file = Parsed doc -> truthy doc = false ->
  load_and_fuzz openapi_file base_url s
  = (mkState (PositiveResponses s) (RequestsCount s)
       (trace s ++ [Stdout (LoadingSpec openapi_file)]),
     Done tt).
Proof.
  intros E Hf. unfold load_and_fuzz, load_openapi_spec, bind, print, emit.
  rewrite E. simpl. rewrite Hf. reflexivity.
Qed.

Lemma load_and_fuzz_no_paths (openapi_file base_url : string)
    (m : list (string * json)) (s : state) :
  fs_read openapi_file = Parsed (JObject m) -> m <> [] -> assoc "paths" m = None ->
  load_and_fuzz openapi_file base_url s
  = (mkState (PositiveResponses s) 1
       (trace s ++ [Stdout (LoadingSpec openapi_file); Stdout Starting;
                    Stdout (Completed 0)]),
     Done tt).
Proof.
  intros E Hm Hp. unfold load_and_fuzz, load_openapi_spec, bind, print, emit.
  rewrite E. simpl. destruct m as [| x m]; [contradiction |].
  unfold fuzz_path_parameters, bind, lift, print, emit, set_count, py_get.
  rewrite Hp. simpl. rewrite <- !app_assoc. reflexivity.
Qed.

(** C5. Result persistence runs on every exit path of the driver.  Whatever
    the body of the [try] statement does (return, raise [KeyboardInterrupt],
    raise anything else), the driver ends with the effects of [save_results]
    on the findings of that moment, after the notice of interruption when the
    body was interrupted; an interruption is caught and the driver returns
    normally.  When the specification file is missing or is not JSON, the
    driver returns normally, sends no request, and from the initial state
    hands the empty finding list to persistence. *)
Theorem persistence_on_every_exit (openapi_file base_url : string) (s : state) :
  (let s1 := fst (load_and_fuzz openapi_file base_url s) in
   let r1 := snd (load_and_fuzz openapi_file base_url s) in
   let s2 := fst (driver openapi_file base_url s) in
   PositiveResponses s2 = PositiveResponses s1
   /\ trace s2 = trace s1
                 ++ match r1 with
                    | Raised KeyboardInterrupt => [Stdout Interrupted]
                    | _ => []
                    end
                 ++ persisted (PositiveResponses s1)
   /\ snd (driver openapi_file base_url s)
      = match r1 with
        | Raised KeyboardInterrupt => Done tt
        | _ => r1
        end)
  /\ (fs_read openapi_file = NoFile \/ fs_read openapi_file = InvalidJson ->
      snd (driver openapi_file base_url s) = Done tt
      /\ requests_of (trace (fst (driver openapi_file base_url s)))
         = requests_of (trace s)
      /\ trace (fst (driver openapi_file base_url s))
         = trace s
           ++ [Stdout (LoadingSpec openapi_file);
               Stdout (match fs_read openapi_file with
                       | NoFile => FileNotFound openapi_file
                       | _ => InvalidFormat openapi_file
                       end)]
           ++ persisted (PositiveResponses s)
      /\ (PositiveResponses s = [] ->
          persisted (PositiveResponses s) = [Stdout NoVulnerable])).
Proof.
  split.
  - cbv zeta. rewrite driver_spec. simpl. auto.
  - intros Hfail. rewrite driver_spec.
    rewrite (load_and_fuzz_failure openapi_file base_url s Hfail). simpl.
    split; [reflexivity |]. split; [| split].
    + rewrite !requests_of_app. simpl.
      assert (Hp : requests_of (persisted (PositiveResponses s)) = [])
        by (unfold persisted; destruct (PositiveResponses s); reflexivity).
      rewrite Hp, !app_nil_r. reflexivity.
    + rewrite <- app_assoc. reflexivity.
    + intros ->. reflexivity.
Qed.

(** C10 (as the program has it).  A specification file that parses to a
    falsy document (the empty object, the empty array, the empty string,
    null, false, a zero) skips the fuzz loop exactly as a failed load does:
    the driver returns normally, sends nothing, and persists the findings it
    had, the empty list from the initial state.  A non-empty JSON object
    without a [paths] member enters the loop, which sends nothing, prints a
    total of 0 and returns normally. *)
Theorem falsy_or_pathless_document (openapi_file base_url : string) (doc : json)
    (s : state) :
  fs_read openapi_file = Parsed doc ->
  (truthy doc = false ->
   driver openapi_file base_url s
   = (mkState (PositiveResponses s) (RequestsCount s)
        (trace s ++ [Stdout (LoadingSpec openapi_file)]
         ++ persisted (PositiveResponses s)),
      Done tt))
  /\ (forall m, doc = JObject m -> m <> [] -> assoc "paths" m = None ->
      driver openapi_file base_url s
      = (mkState (PositiveResponses s) 1
           (trace s ++ [Stdout (LoadingSpec openapi_file); Stdout Starting;
                        Stdout (Completed 0)]
            ++ persisted (PositiveResponses s)),
         Done tt)).
Proof.
  intros E. split.
  - intros Hf. rewrite driver_spec.
    rewrite (load_and_fuzz_falsy openapi_file base_url doc s E Hf). simpl.
    rewrite <- app_assoc. reflexivity.
  - intros m -> Hm Hp. rewrite driver_spec.
    rewrite (load_and_fuzz_no_paths openapi_file base_url m s E Hm Hp). simpl.
    rewrite <- !app_assoc. reflexivity.
Qed.

End Driver.

(* ================================================================== *)
(** * Result persistence *)

Section Persistence.

Context {W : World}.

Lemma split_head (sep : ascii) (s : string) :
  exists h t, PyStr.split sep s = h :: t.
Proof.
  induction s as [| c s IH]; simpl.
  - eexists; eexists; reflexivity.
  - destruct (Ascii.eqb c sep); [eexists; eexists; reflexivity |].
    destruct IH as [h [t E]]. rewrite E. eexists; eexists; reflexivity.
Qed.

(** Splitting a text at a separator that is not in it. *)
Lemma split_free (sep : ascii) (s : string) :
  PyStr.mem sep s = false -> PyStr.split sep s = [s].
Proof.
  induction s as [| c s IH]; simpl; [reflexivity |].
  intros H. apply orb_false_iff in H. destruct H as [Hc Hs].
  rewrite Ascii.eqb_sym, Hc, (IH Hs). reflexivity.
Qed.

(** Splitting a text at one of its separators. *)
Lemma split_append (sep : ascii) (a b : string) :
  PyStr.split sep (a ++ String sep b) = PyStr.split sep a ++ PyStr.split sep b.
Proof.
  induction a as [| c a IH]; simpl.
  - rewrite Ascii.eqb_refl. reflexivity.
  - destruct (Ascii.eqb c sep); [rewrite IH; reflexivity |].
    rewrite IH. destruct (split_head sep a) as [h [t E]]. rewrite E. reflexivity.
Qed.

Lemma split_join (sep : ascii) (l : list string) :
  l <> [] -> (forall x, In x l -> PyStr.mem sep x = false) ->
  PyStr.split sep (PyStr.join (String sep "") l) = l.
Proof.
  induction l as [| x r IH]; intros Hne Hfree; [contradiction |].
  destruct r as [| y r].
  - simpl. apply split_free. apply Hfree. left; reflexivity.
  - change (PyStr.join (String sep "") (x :: y :: r))
      with (x ++ String sep (PyStr.join (String sep "") (y :: r)))%string.
    rewrite split_append, split_free by (apply Hfree; left; reflexivity).
    rewrite IH; [reflexivity | discriminate |].
    intros z Hz. apply Hfree. right. exact Hz.
Qed.

Lemma results_lines (pathList : list string) :
  pathList <> [] ->
  (forall p, In p pathList -> PyStr.mem PyStr.LF p = false) ->
  PyStr.split PyStr.LF (results_content pathList)
  = results_header :: PyStr.repeat "=" 50 :: EmptyString :: pathList.
Proof.
  intros Hne Hfree. unfold results_content.
  change (results_header ++ String PyStr.LF ""
          ++ PyStr.repeat "=" 50 ++ String PyStr.LF (String PyStr.LF "")
          ++ PyStr.join (String PyStr.LF "") pathList)%string
    with (results_header
          ++ String PyStr.LF
               (PyStr.repeat "=" 50
                ++ String PyStr.LF
                     ("" ++ String PyStr.LF
                              (PyStr.join (String PyStr.LF "") pathList))))%string.
  rewrite !split_append, (split_join PyStr.LF pathList Hne Hfree).
  reflexivity.
Qed.

(** C8 (as the program has it).  With no finding, [save_results] writes no
    file and prints that no vulnerable endpoint was found.  With findings it
    writes exactly one file, named [results_] followed by the time as
    HH-MM-SS_DD-MM-YY and [.txt], and prints its name; the file holds the
    header line, a separator line of fifty [=], one empty line, and then the
    findings in order, one per line. *)
Theorem results_file (pathList : list string) (s : state) :
  (pathList = [] ->
   save_results pathList s
   = (mkState (PositiveResponses s) (RequestsCount s)
        (trace s ++ [Stdout NoVulnerable]), Done tt))
  /\ (pathList <> [] ->
      save_results pathList s
      = (mkState (PositiveResponses s) (RequestsCount s)
           (trace s
            ++ [FileWritten ("results_" ++ strftime now ++ ".txt")
                  (results_content pathList);
                Stdout (ResultsSaved ("results_" ++ strftime now ++ ".txt"))]),
         Done tt)
      /\ ((forall p, In p pathList -> PyStr.mem PyStr.LF p = false) ->
          PyStr.split PyStr.LF (results_content pathList)
          = "Endpoints that returned 200 OK with fuzzed payloads:"
            :: "=================================================="
            :: "" :: pathList))
  /\ strftime (mkDatetime 9 5 30 3 11 2026) = "09-05-30_03-11-26".
Proof.
  split; [| split].
  - intros ->. reflexivity.
  - intros Hne. split.
    + rewrite save_results_spec. destruct pathList; [contradiction | reflexivity].
    + intros Hfree. exact (results_lines pathList Hne Hfree).
  - reflexivity.
Qed.

End Persistence.

(* ================================================================== *)
(** * Configuration *)

Section Configuration.

Context {W : World}.

(** C7 (as the program has it).  A command-line value that is present and
    not empty wins over the configuration file; a configuration file that
    parses to an object holding the three keys supplies every value without
    a command-line flag; and when the file is missing or is not JSON the
    built-in defaults supply them, the malformed file costing a warning
    only. *)
Theorem configuration_precedence (a : args) (s : state) :
  (forall s' c, resolve_configuration a s = (s', Done c) ->
     (forall u, given (arg_url a) = Some u -> BASE_URL c = JString u)
     /\ (forall f, given (arg_file a) = Some f -> OPENAPI_FILE c = JString f))
  /\ (forall m base_url openapi_file zap_proxy,
        fs_read (arg_config a) = Parsed (JObject m) ->
        assoc "base_url" m = Some base_url ->
        assoc "openapi_file" m = Some openapi_file ->
        assoc "zap_proxy" m = Some zap_proxy ->
        resolve_configuration a s
        = (s, Done (mkConfiguration (or_else (arg_url a) base_url)
                      (or_else (arg_file a) openapi_file) zap_proxy)))
  /\ (fs_read (arg_config a) = NoFile ->
      resolve_configuration a s
      = (s, Done (mkConfiguration
                    (or_else (arg_url a) (JString "https://api.example.com"))
                    (or_else (arg_file a) (JString "openapi.json"))
                    (JString "http://127.0.0.1:8080"))))
  /\ (fs_read (arg_config a) = InvalidJson ->
      resolve_configuration a s
      = (mkState (PositiveResponses s) (RequestsCount s)
           (trace s ++ [Stdout (ConfigWarning (arg_config a))]),
         Done (mkConfiguration
                 (or_else (arg_url a) (JString "https://api.example.com"))
                 (or_else (arg_file a) (JString "openapi.json"))
                 (JString "http://127.0.0.1:8080")))).
Proof.
  split; [| split; [| split]].
  - intros s' c H. unfold resolve_configuration, bind, lift in H.
    destruct (load_config (arg_config a) s) as [s0 [config | e]]; [| discriminate].
    split.
    + intros u Hu. rewrite Hu in H. simpl in H.
      destruct (given (arg_file a)); simpl in H.
      * destruct (py_index config "zap_proxy"); inversion H; reflexivity.
      * destruct (py_index config "openapi_file"); [| discriminate].
        destruct (py_index config "zap_proxy"); inversion H; reflexivity.
    + intros f Hf. rewrite Hf in H.
      destruct (given (arg_url a)); simpl in H.
      * destruct (py_index config "zap_proxy"); inversion H; reflexivity.
      * destruct (py_index config "base_url"); [| discriminate].
        destruct (py_index config "zap_proxy"); inversion H; reflexivity.
  - intros m base_url openapi_file zap_proxy E H1 H2 H3.
    unfold resolve_configuration, load_config, bind, lift, or_else.
    rewrite E. unfold ret.
    destruct (given (arg_url a)), (given (arg_file a)); simpl;
      rewrite ?H1, ?H2, ?H3; simpl; rewrite ?H1, ?H2, ?H3; reflexivity.
  - intros E.
    unfold resolve_configuration, load_config, bind, lift, or_else.
    rewrite E. simpl.
    destruct (given (arg_url a)), (given (arg_file a)); reflexivity.
  - intros E.
    unfold resolve_configuration, load_config, bind, lift, or_else, print, emit.
    rewrite E. simpl.
    destruct (given (arg_url a)), (given (arg_file a)); reflexivity.
Qed.

End Configuration.

(* ================================================================== *)
(** * Request targets *)

Section Targets.

Context {W : World}.

Lemma lstrip_not_slash (s : string) :
  PyStr.startswith "/" s = false -> PyStr.lstrip "/" s = s.
Proof.
  destruct s as [| c r]; [reflexivity |].
  change (PyStr.startswith "/" (String c r)) with (Ascii.eqb "/" c && true).
  rewrite Bool.andb_true_r. intros H. cbn [PyStr.lstrip PyStr.mem].
  rewrite Ascii.eqb_sym, H. reflexivity.
Qed.

(** [lstrip('/')] removes every leading slash. *)
Lemma lstrip_all (s : string) :
  exists k,
    s = (PyStr.repeat "/" k ++ PyStr.lstrip "/" s)%string
    /\ PyStr.startswith "/" (PyStr.lstrip "/" s) = false.
Proof.
  induction s as [| c r IH].
  - exists 0. split; reflexivity.
  - cbn [PyStr.lstrip PyStr.mem]. destruct (Ascii.eqb c "/") eqn:E; cbn [orb].
    + apply Ascii.eqb_eq in E. subst c. destruct IH as [k [H1 H2]].
      exists (S k). split; [| exact H2]. simpl. rewrite <- H1. reflexivity.
    + exists 0. split; [reflexivity |].
      change (PyStr.startswith "/" (String c r)) with (Ascii.eqb "/" c && true).
      rewrite Ascii.eqb_sym, E. reflexivity.
Qed.

Lemma lstrip_single (s : string) :
  PyStr.startswith "//" s = false -> PyStr.lstrip "/" s = strip_single_slash s.
Proof.
  destruct s as [| c r]; [reflexivity |].
  change (PyStr.startswith "//" (String c r))
    with (Ascii.eqb "/" c && PyStr.startswith "/" r).
  cbn [PyStr.lstrip PyStr.mem strip_single_slash].
  rewrite (Ascii.eqb_sym "/" c). destruct (Ascii.eqb c "/"); simpl.
  - apply lstrip_not_slash.
  - reflexivity.
Qed.

(** C6 (as the program has it).  Before the join every leading slash of the
    fuzzed path is stripped, not only one: the fuzzed path is some number of
    slashes followed by what is joined, which does not start with a slash.
    On a path that does not start with two slashes this is the removal of a
    single leading slash, and for the base URL https://api.example.com and
    the fuzzed path /items/1 the target is https://api.example.com/items/1. *)
Theorem leading_slashes_stripped :
  (forall fuzzed_path,
     exists k,
       fuzzed_path = (PyStr.repeat "/" k ++ PyStr.lstrip "/" fuzzed_path)%string
       /\ PyStr.startswith "/" (PyStr.lstrip "/" fuzzed_path) = false)
  /\ (forall fuzzed_path,
        PyStr.startswith "//" fuzzed_path = false ->
        PyStr.lstrip "/" fuzzed_path = strip_single_slash fuzzed_path)
  /\ urljoin "https://api.example.com" (PyStr.lstrip "/" "/items/1")
     = Done "https://api.example.com/items/1".
Proof.
  split; [exact lstrip_all | split; [exact lstrip_single |]].
  vm_compute. reflexivity.
Qed.

(** ** The last segment of the base path *)

Lemma filter_middle_snoc (h : string) (middle : list string) (z : string) :
  Urllib.filter_middle (h :: middle ++ [z])
  = h :: filter (fun x => negb (PyStr.is_empty x)) middle ++ [z].
Proof.
  unfold Urllib.filter_middle.
  destruct (middle ++ [z]) as [| y rest] eqn:E.
  - destruct middle; discriminate.
  - rewrite <- E, removelast_last, last_last. reflexivity.
Qed.

(** An empty segment between the base and the reference is dropped. *)
Lemma filter_middle_gap (base_parts segments : list string) :
  base_parts <> [] -> segments <> [] ->
  Urllib.filter_middle ((base_parts ++ [EmptyString]) ++ segments)
  = Urllib.filter_middle (base_parts ++ segments).
Proof.
  intros Hb Hs. destruct base_parts as [| h t]; [contradiction |].
  rewrite (app_removelast_last EmptyString Hs).
  set (q := removelast segments). set (z := last segments EmptyString).
  replace (((h :: t) ++ [EmptyString]) ++ q ++ [z])
    with (h :: (t ++ [EmptyString] ++ q) ++ [z])
    by (simpl; rewrite <- !app_assoc; reflexivity).
  replace ((h :: t) ++ q ++ [z]) with (h :: (t ++ q) ++ [z])
    by (simpl; rewrite <- !app_assoc; reflexivity).
  rewrite !filter_middle_snoc, !filter_app. reflexivity.
Qed.

Lemma split_not_nil (sep : ascii) (s : string) : PyStr.split sep s <> [].
Proof. destruct (split_head sep s) as [h [t E]]. rewrite E. discriminate. Qed.

(** The path of the joined URL does not depend on a last segment of the
    base path. *)
Lemma merge_paths_last_segment (dir last_segment rpath : string) :
  PyStr.mem "/" last_segment = false -> last_segment <> EmptyString ->
  Urllib.merge_paths (dir ++ String "/" last_segment) rpath
  = Urllib.merge_paths (dir ++ String "/" EmptyString) rpath.
Proof.
  intros Hfree Hne. unfold Urllib.merge_paths.
  rewrite !split_append, (split_free "/" last_segment Hfree).
  change (PyStr.split "/" "") with [EmptyString].
  rewrite !last_last, removelast_last.
  destruct last_segment as [| c r]; [contradiction |].
  cbn [PyStr.is_empty].
  destruct (PyStr.startswith "/" rpath); [reflexivity |].
  rewrite (filter_middle_gap _ _ (split_not_nil "/" dir) (split_not_nil "/" rpath)).
  reflexivity.
Qed.

Lemma urlsplit_empty (default : string) :
  Urllib.urlsplit netloc_check EmptyString default
  = Done (Urllib.mkParse
            (Urllib.remove_unsafe (Urllib.rstrip_c0 (Urllib.lstrip_c0 default)))
            EmptyString EmptyString EmptyString EmptyString EmptyString).
Proof. reflexivity. Qed.

Lemma urlparse_empty (default : string) (r : Urllib.ParseResult) :
  Urllib.urlparse netloc_check EmptyString default = Done r ->
  Urllib.path r = EmptyString /\ Urllib.params r = EmptyString.
Proof.
  unfold Urllib.urlparse. rewrite urlsplit_empty.
  cbn [Urllib.path Urllib.scheme PyStr.mem]. rewrite Bool.andb_false_r.
  intros H. inversion H. split; reflexivity.
Qed.

(** C9 (as the program has it).  Take a base URL whose path is [dir/last]
    with a non-empty last segment, and a reference that has a path (or
    parameters) once parsed against the scheme of the base.  Joining the
    reference to this base gives what joining it to the base with the path
    [dir/] gives: the last segment of the base path does not reach the
    target.  So for the base https://api.example.com/v1 the fuzzed path
    /items/1 is sent to https://api.example.com/items/1, while the base
    https://api.example.com/v1/ sends it to
    https://api.example.com/v1/items/1. *)
Theorem last_segment_of_base_dropped :
  (forall base base' url b b' r dir last_segment,
     Urllib.urlparse netloc_check base EmptyString = Done b ->
     Urllib.urlparse netloc_check base' EmptyString = Done b' ->
     Urllib.scheme b' = Urllib.scheme b ->
     Urllib.netloc b' = Urllib.netloc b ->
     Urllib.path b = (dir ++ "/" ++ last_segment)%string ->
     PyStr.mem "/" last_segment = false ->
     last_segment <> EmptyString ->
     Urllib.path b' = (dir ++ "/")%string ->
     Urllib.urlparse netloc_check url (Urllib.scheme b) = Done r ->
     Urllib.path r <> EmptyString \/ Urllib.params r <> EmptyString ->
     urljoin base url = urljoin base' url)
  /\ urljoin "https://api.example.com/v1" (PyStr.lstrip "/" "/items/1")
     = Done "https://api.example.com/items/1"
  /\ urljoin "https://api.example.com/v1/" (PyStr.lstrip "/" "/items/1")
     = Done "https://api.example.com/v1/items/1".
Proof.
  split; [| split; vm_compute; reflexivity].
  intros base base' url b b' r dir last_segment Hb Hb' Hs Hn Hp Hfree Hne Hp' Hr Hpath.
  assert (Hbase : PyStr.is_empty base = false).
  { destruct base; [| reflexivity]. apply urlparse_empty in Hb.
    destruct Hb as [Hb _]. rewrite Hp in Hb. destruct dir; discriminate. }
  assert (Hbase' : PyStr.is_empty base' = false).
  { destruct base'; [| reflexivity]. apply urlparse_empty in Hb'.
    destruct Hb' as [Hb' _]. rewrite Hp' in Hb'. destruct dir; discriminate. }
  assert (Hurl : PyStr.is_empty url = false).
  { destruct url; [| reflexivity]. apply urlparse_empty in Hr.
    destruct Hr as [H1 H2]. destruct Hpath; contradiction. }
  assert (Hboth : PyStr.is_empty (Urllib.path r) && PyStr.is_empty (Urllib.params r)
                  = false).
  { destruct (Urllib.path r), (Urllib.params r); try reflexivity.
    destruct Hpath as [H | H]; exfalso; apply H; reflexivity. }
  unfold urljoin, Urllib.urljoin.
  rewrite Hbase, Hbase', Hurl, Hb, Hb', Hs, Hr, Hn, Hboth, Hp, Hp'.
  change (dir ++ "/" ++ last_segment)%string with (dir ++ String "/" last_segment)%string.
  change (dir ++ "/")%string with (dir ++ String "/" EmptyString)%string.
  rewrite (merge_paths_last_segment dir last_segment (Urllib.path r) Hfree Hne).
  reflexivity.
Qed.

End Targets.

(* ================================================================== *)
(** * The theorems on sample runs *)

Section Samples.

Import Sample.

(** C1 on a run: against a server that only answers 404, the fuzz loop over
    the sample document records nothing. *)
Lemma only_status_200_is_recorded_sample :
  (forall count method full_url,
     @server strict count method full_url <> Response 200)
  /\ PositiveResponses
       (fst (@fuzz_path_parameters strict petstore "https://api.example.com" initial))
     = [].
Proof.
  split.
  - intros count method full_url H. discriminate H.
  - apply (proj2 (@only_status_200_is_recorded strict)).
    intros count method full_url H. discriminate H.
Defined.



(** C4 on a run: the findings of the sample run are pairwise distinct. *)
Lemma findings_distinct_in_order_sample :
  NoDup (PositiveResponses initial)
  /\ NoDup (PositiveResponses
              (fst (@driver lenient "openapi.json" "https://api.example.com" initial))).
Proof.
  assert (H : NoDup (PositiveResponses initial)) by constructor.
  split; [exact H |].
  exact (proj1 (proj2 (@findings_distinct_in_order lenient petstore "openapi.json"
                         "https://api.example.com" initial H))).
Defined.

(** C5 on a run: a missing specification file. *)
Lemma persistence_on_every_exit_sample :
  @fs_read lenient "nothing.json" = NoFile
  /\ snd (@driver lenient "nothing.json" "https://api.example.com" initial) = Done tt
  /\ trace (fst (@driver lenient "nothing.json" "https://api.example.com" initial))
     = [Stdout (LoadingSpec "nothing.json"); Stdout (FileNotFound "nothing.json");
        Stdout NoVulnerable].
Proof.
  assert (H : @fs_read lenient "nothing.json" = NoFile) by reflexivity.
  split; [exact H |].
  destruct (proj2 (@persistence_on_every_exit lenient "nothing.json"
                     "https://api.example.com" initial) (or_introl H))
    as [R [_ [T _]]].
  split; [exact R | exact T].
Defined.

(** A user who interrupts the third request: the driver returns normally,
    and the finding made before the interruption is written to the file. *)
Lemma interrupted_run_is_persisted :
  @driver interrupted "openapi.json" "https://api.example.com" initial
  = (mkState ["/users/{id}/orders/{orderId}"] 4
       [Stdout (LoadingSpec "openapi.json"); Stdout Starting;
        Stdout (RequestLine 1 "get" "https://api.example.com/users/1/orders/1");
        Request "get" "https://api.example.com/users/1/orders/1";
        Stdout (StatusLine 200);
        Stdout (WarningLine "/users/{id}/orders/{orderId}");
        Stdout (RequestLine 2 "get" "https://api.example.com/users/0/orders/0");
        Request "get" "https://api.example.com/users/0/orders/0";
        Stdout (StatusLine 200);
        Stdout (RequestLine 3 "get" "https://api.example.com/users/6,5/orders/6,5");
        Request "get" "https://api.example.com/users/6,5/orders/6,5";
        Stdout Interrupted;
        FileWritten "results_09-05-30_03-11-26.txt"
          (results_content ["/users/{id}/orders/{orderId}"]);
        Stdout (ResultsSaved "results_09-05-30_03-11-26.txt")],
     Done tt).
Proof. vm_compute. reflexivity. Qed.

(** C6 on the fuzzed path of the specification's example. *)
Lemma leading_slashes_stripped_sample :
  PyStr.startswith "//" "/items/1" = false
  /\ PyStr.lstrip "/" "/items/1" = "items/1".
Proof.
  split; [reflexivity |].
  exact (proj1 (proj2 (@leading_slashes_stripped lenient)) "/items/1" eq_refl).
Defined.

(** C7 on a run: a complete configuration file and a [--url] flag. *)
Lemma configuration_precedence_sample :
  @resolve_configuration lenient (mkArgs (Some "http://10.0.0.1") None "config.json")
    initial
  = (initial,
     Done (mkConfiguration (JString "http://10.0.0.1") (JString "api.json")
             (JString "http://127.0.0.1:8090"))).
Proof.
  exact (proj1 (proj2 (@configuration_precedence lenient
                         (mkArgs (Some "http://10.0.0.1") None "config.json") initial))
           _ _ _ _ eq_refl eq_refl eq_refl eq_refl).
Defined.

(** C8 on a list of two findings. *)
Lemma results_file_sample :
  PyStr.split PyStr.LF (results_content ["/users/{id}"; "/items/{itemId}"])
  = ["Endpoints that returned 200 OK with fuzzed payloads:";
     "==================================================";
     ""; "/users/{id}"; "/items/{itemId}"].
Proof.
  refine (proj2 (proj1 (proj2 (@results_file lenient ["/users/{id}"; "/items/{itemId}"]
                                 initial)) _) _).
  - discriminate.
  - intros p [<- | [<- | []]]; reflexivity.
Defined.

(** C9 on two bases that differ in the last segment. *)
Lemma last_segment_of_base_dropped_sample :
  @urljoin lenient "https://api.example.com/api/v1" "items/1"
  = @urljoin lenient "https://api.example.com/api/" "items/1".
Proof.
  refine (proj1 (@last_segment_of_base_dropped lenient)
            "https://api.example.com/api/v1" "https://api.example.com/api/" "items/1"
            (Urllib.mkParse "https" "api.example.com" "/api/v1" "" "" "")
            (Urllib.mkParse "https" "api.example.com" "/api/" "" "" "")
            (Urllib.mkParse "https" "" "items/1" "" "" "")
            "/api" "v1" _ _ _ _ _ _ _ _ _ _);
    try reflexivity.
  - discriminate.
  - left. discriminate.
Defined.

(** C10 on two files: the empty object, and an object without [paths]. *)
Lemma falsy_or_pathless_document_sample :
  @fs_read lenient "empty.json" = Parsed (JObject [])
  /\ @driver lenient "empty.json" "https://api.example.com" initial
     = (mkState [] 0 [Stdout (LoadingSpec "empty.json"); Stdout NoVulnerable], Done tt)
  /\ @driver lenient "info.json" "https://api.example.com" initial
     = (mkState [] 1 [Stdout (LoadingSpec "info.json"); Stdout Starting;
                      Stdout (Completed 0); Stdout NoVulnerable], Done tt).
Proof.
  split; [reflexivity | split].
  - exact (proj1 (@falsy_or_pathless_document lenient "empty.json"
                    "https://api.example.com" (JObject []) initial eq_refl) eq_refl).
  - refine (proj2 (@falsy_or_pathless_document lenient "info.json"
                     "https://api.example.com" _ initial eq_refl) _ eq_refl _ eq_refl).
    discriminate.
Defined.

(** ** Where the program departs from the specification *)


(** C6: the fuzzed path //items/1 loses both leading slashes, not one, and
    the request goes to another URL than after the removal of a single
    slash. *)
Lemma all_leading_slashes_go :
  @substitute lenient [id_parameter] "1" "//items/{id}" = Done "//items/1"
  /\ PyStr.lstrip "/" "//items/1" = "items/1"
  /\ strip_single_slash "//items/1" = "/items/1"
  /\ @urljoin lenient "https://api.example.com/v1/" (PyStr.lstrip "/" "//items/1")
     = Done "https://api.example.com/v1/items/1"
  /\ @urljoin lenient "https://api.example.com/v1/" (strip_single_slash "//items/1")
     = Done "https://api.example.com/items/1"
  /\ hd_error (requests_of (trace (fst (@fuzz_path_parameters lenient double_slash
                                          "https://api.example.com/v1/" initial))))
     = Some ("get", "https://api.example.com/v1/items/1").
Proof. repeat split; vm_compute; reflexivity. Qed.

(** C7: a configuration file that parses but lacks two keys.  The
    specification promises the defaults for them; the program raises
    [KeyError]. *)
Lemma missing_key_is_not_defaulted :
  @fs_read lenient "partial.json"
  = Parsed (JObject [("base_url", JString "http://localhost:5000")])
  /\ claimed_configuration (mkArgs None None "partial.json")
       (@fs_read lenient "partial.json")
     = mkConfiguration (JString "http://localhost:5000") (JString "openapi.json")
         (JString "http://127.0.0.1:8080")
  /\ snd (@resolve_configuration lenient (mkArgs None None "partial.json") initial)
     = Raised KeyError.
Proof. repeat split; reflexivity. Qed.

(** C8: the third line of the file is empty; the first finding is on the
    fourth line, not immediately after the two-line header. *)
Lemma blank_line_after_header :
  nth_error (PyStr.split PyStr.LF (results_content ["/items/{itemId}"])) 2
  = Some ""
  /\ nth_error (PyStr.split PyStr.LF (claimed_results_content ["/items/{itemId}"])) 2
     = Some "/items/{itemId}"
  /\ nth_error (PyStr.split PyStr.LF (results_content ["/items/{itemId}"])) 3
     = Some "/items/{itemId}".
Proof. repeat split; vm_compute; reflexivity. Qed.

(** C9: the template [/] with a path parameter.  The fuzzed path is empty
    once its slash is stripped, and every request goes to the base URL
    itself, last segment included. *)
Lemma empty_reference_keeps_base :
  @substitute lenient [id_parameter] "1" "/" = Done "/"
  /\ PyStr.lstrip "/" "/" = ""
  /\ requests_of (trace (fst (@fuzz_path_parameters lenient root_only
                                "https://api.example.com/v1" initial)))
     = List.repeat ("get", "https://api.example.com/v1") 7.
Proof. repeat split; vm_compute; reflexivity. Qed.

(** C10: a truthy document that is not an object.  The loop raises
    [AttributeError] on [spec.get]; persistence has run, and the exception
    leaves the driver. *)
Lemma truthy_array_raises :
  @fs_read lenient "list.json" = Parsed (JArray [JInt 1])
  /\ truthy (JArray [JInt 1]) = true
  /\ @driver lenient "list.json" "https://api.example.com" initial
     = (mkState [] 1 [Stdout (LoadingSpec "list.json"); Stdout Starting;
                      Stdout NoVulnerable],
        Raised AttributeError).
Proof. repeat split; reflexivity. Qed.

End Samples.

(* ================================================================== *)
(** * Configuration: when resolution succeeds *)

Section ConfigurationOutcome.

Context {W : World}.

(** X1. The outcome of the resolution for a configuration file that parses.
    An object supplies [zap_proxy] itself, for which there is no flag, and
    each of [base_url] and [openapi_file] unless the flag is given: with the
    three values at hand the resolution returns them, and it raises
    [KeyError] as soon as one is not, whatever the other flags are.  A
    document that is not an object raises [TypeError] under every
    combination of flags.  None of this prints anything. *)
Theorem configuration_outcome (a : args) (doc : json) (s : state) :
  fs_read (arg_config a) = Parsed doc ->
  (forall m, doc = JObject m ->
     (supplied (arg_url a) m "base_url"
      && supplied (arg_file a) m "openapi_file"
      && supplied None m "zap_proxy" = false ->
      resolve_configuration a s = (s, Raised KeyError))
     /\ (forall base_url openapi_file zap_proxy,
           (given (arg_url a) = None -> assoc "base_url" m = Some base_url) ->
           (given (arg_file a) = None -> assoc "openapi_file" m = Some openapi_file) ->
           assoc "zap_proxy" m = Some zap_proxy ->
           resolve_configuration a s
           = (s, Done (mkConfiguration (or_else (arg_url a) base_url)
                         (or_else (arg_file a) openapi_file) zap_proxy))))
  /\ (is_object doc = false ->
      resolve_configuration a s = (s, Raised TypeError)).
Proof.
  intros E. split.
  - intros m ->. split.
    + unfold supplied, resolve_configuration, load_config, bind, lift, or_else.
      rewrite E. unfold ret. simpl.
      destruct (given (arg_url a)), (given (arg_file a));
        destruct (assoc "base_url" m), (assoc "openapi_file" m),
                 (assoc "zap_proxy" m); simpl; intros H;
        try discriminate; reflexivity.
    + intros base_url openapi_file zap_proxy Hb Hf Hz.
      unfold resolve_configuration, load_config, bind, lift, or_else.
      rewrite E. unfold ret.
      destruct (given (arg_url a)), (given (arg_file a)); simpl;
        rewrite ?Hb, ?Hf, ?Hz by reflexivity; simpl;
        rewrite ?Hb, ?Hf, ?Hz by reflexivity; reflexivity.
  - intros Hobj.
    unfold resolve_configuration, load_config, bind, lift. rewrite E. unfold ret.
    destruct doc; try discriminate;
      destruct (given (arg_url a)), (given (arg_file a)); reflexivity.
Qed.

End ConfigurationOutcome.

(* ================================================================== *)
(** * The name of the results file *)

Section Timestamp.

Lemma digit_text (d : nat) :
  d < 10 -> PyStr.of_nat d = String (ascii_of_nat (48 + d)) EmptyString.
Proof.
  intros H. do 10 (destruct d as [| d]; [reflexivity |]). lia.
Qed.

Lemma two_digits_text (n : nat) :
  two_digits n
  = String (ascii_of_nat (48 + (n / 10) mod 10))
      (String (ascii_of_nat (48 + n mod 10)) EmptyString).
Proof.
  unfold two_digits.
  rewrite !digit_text by (apply Nat.mod_upper_bound; discriminate).
  reflexivity.
Qed.

Lemma digit_char_inj (d e : nat) :
  d < 10 -> e < 10 -> ascii_of_nat (48 + d) = ascii_of_nat (48 + e) -> d = e.
Proof.
  intros Hd He H.
  apply (f_equal nat_of_ascii) in H.
  rewrite !nat_ascii_embedding in H by lia. lia.
Qed.

Lemma two_digits_chars (n m : nat) :
  ascii_of_nat (48 + (n / 10) mod 10) = ascii_of_nat (48 + (m / 10) mod 10) ->
  ascii_of_nat (48 + n mod 10) = ascii_of_nat (48 + m mod 10) ->
  n mod 100 = m mod 100.
Proof.
  intros H1 H2.
  apply digit_char_inj in H1; try (apply Nat.mod_upper_bound; discriminate).
  apply digit_char_inj in H2; try (apply Nat.mod_upper_bound; discriminate).
  assert (En : n mod 100 = 10 * ((n / 10) mod 10) + n mod 10).
  { replace 100 with (10 * 10) by reflexivity. rewrite Nat.Div0.mod_mul_r. lia. }
  assert (Em : m mod 100 = 10 * ((m / 10) mod 10) + m mod 10).
  { replace 100 with (10 * 10) by reflexivity. rewrite Nat.Div0.mod_mul_r. lia. }
  rewrite En, Em, H1, H2. reflexivity.
Qed.

(** X2. The time stamp in the name of the results file tells apart any two
    moments that differ in the hour, the minute, the second, the day, the
    month or the year within the century; and it is the same for two moments
    exactly a hundred years apart. *)
Theorem timestamp_distinguishes (t u : datetime) :
  two_digit_fields t = true -> two_digit_fields u = true ->
  (strftime t = strftime u ->
   hour t = hour u /\ minute t = minute u /\ second t = second u
   /\ day t = day u /\ month t = month u /\ year t mod 100 = year u mod 100)
  /\ strftime (mkDatetime (hour t) (minute t) (second t) (day t) (month t)
                 (year t + 100))
     = strftime t.
Proof.
  intros Ht Hu. split.
  - unfold strftime. rewrite !two_digits_text. simpl. intros H.
    injection H as H1 H2 H3 H4 H5 H6 H7 H8 H9 H10 H11 H12.
    unfold two_digit_fields in Ht, Hu.
    repeat (apply andb_true_iff in Ht; destruct Ht as [Ht ?]).
    repeat (apply andb_true_iff in Hu; destruct Hu as [Hu ?]).
    repeat match goal with
           | H : Nat.ltb _ _ = true |- _ => apply Nat.ltb_lt in H
           end.
    pose proof (two_digits_chars _ _ H1 H2) as Eh.
    pose proof (two_digits_chars _ _ H3 H4) as Em.
    pose proof (two_digits_chars _ _ H5 H6) as Es.
    pose proof (two_digits_chars _ _ H7 H8) as Ed.
    pose proof (two_digits_chars _ _ H9 H10) as Eo.
    pose proof (two_digits_chars _ _ H11 H12) as Ey.
    rewrite !Nat.mod_small in Eh, Em, Es, Ed, Eo by assumption.
    auto 10.
  - unfold strftime. simpl. do 5 f_equal.
    rewrite !two_digits_text.
    assert (E1 : ((year t + 100) / 10) mod 10 = (year t / 10) mod 10).
    { replace (year t + 100) with (year t + 10 * 10) by lia.
      rewrite Nat.div_add by discriminate.
      replace (year t / 10 + 10) with (year t / 10 + 1 * 10) by lia.
      apply Nat.Div0.mod_add. }
    assert (E2 : (year t + 100) mod 10 = year t mod 10).
    { replace (year t + 100) with (year t + 10 * 10) by lia.
      apply Nat.Div0.mod_add. }
    rewrite E1, E2. reflexivity.
Qed.

End Timestamp.

(* ================================================================== *)
(** * The request counter *)

Section Counter.

Context {W : World}.

Lemma request_numbers_app (t u : list event) :
  request_numbers (t ++ u) = request_numbers t ++ request_numbers u.
Proof.
  induction t as [| e t IH]; simpl; [reflexivity |].
  destruct e as [[] | |]; simpl; rewrite IH; reflexivity.
Qed.

Lemma numbered_still {A} (m : M A) :
  (forall s, fst (m s) = s) -> numbered m.
Proof.
  intros H s. exists 0. rewrite H, !app_nil_r, !Nat.add_0_r. auto.
Qed.

Lemma numbered_bind {A B} (m : M A) (k : A -> M B) :
  numbered m -> (forall a, numbered (k a)) -> numbered (bind m k).
Proof.
  intros Hm Hk s. unfold bind.
  destruct (Hm s) as [k1 [C1 [N1 R1]]].
  destruct (m s) as [s1 [a | e]]; simpl in *.
  - destruct (Hk a s1) as [k2 [C2 [N2 R2]]].
    exists (k1 + k2). rewrite C2, N2, R2, C1, N1, R1, seq_app, <- app_assoc.
    repeat split; lia.
  - exists k1. auto.
Qed.

Lemma numbered_for_each {A} (l : list A) (body : A -> M unit) :
  (forall x, numbered (body x)) -> numbered (for_each l body).
Proof.
  intros H. induction l as [| x r IH]; simpl.
  - apply numbered_still. reflexivity.
  - apply numbered_bind; [apply H | intros _; exact IH].
Qed.

(** One announced request: whatever the server does, one line, one request,
    one count. *)
Lemma numbered_request (path method full_url : string) :
  numbered ((fun s => print (RequestLine (RequestsCount s) method full_url) s) ;;
            send path method full_url).
Proof.
  intros s. exists 1. unfold bind, print, emit, send, try_finally. simpl.
  destruct (server (RequestsCount s) method full_url) as [code | msg | e]; simpl.
  - unfold bind. simpl. rewrite classify_spec. simpl.
    destruct (code =? 200)%Z;
      [destruct (existsb (String.eqb path) (PositiveResponses s)) |];
      simpl; rewrite ?request_numbers_app, ?requests_of_app; simpl;
      rewrite ?request_numbers_app, ?requests_of_app; simpl;
      rewrite ?app_nil_r, ?length_app; simpl; repeat split; lia.
  - rewrite ?request_numbers_app, ?requests_of_app; simpl.
    rewrite ?request_numbers_app, ?requests_of_app; simpl.
    rewrite ?app_nil_r, ?length_app; simpl; repeat split; lia.
  - rewrite ?request_numbers_app, ?requests_of_app; simpl.
    rewrite ?request_numbers_app, ?requests_of_app; simpl.
    rewrite ?app_nil_r, ?length_app; simpl; repeat split; lia.
Qed.

Lemma numbered_fuzz_operation base_url path method operation :
  numbered (fuzz_operation base_url path method operation).
Proof.
  unfold fuzz_operation.
  apply numbered_bind; [apply numbered_still; reflexivity | intros path_params].
  destruct path_params; [apply numbered_still; reflexivity |].
  apply numbered_for_each. intros payload. unfold fuzz_one.
  apply numbered_bind; [apply numbered_still; reflexivity | intros fuzzed_path].
  apply numbered_bind; [apply numbered_still; reflexivity | intros full_url].
  apply numbered_request.
Qed.

Lemma numbered_loops base_url (items : list (string * json)) :
  numbered
    (for_each items (fun '(path, path_data) =>
       operations <- lift (py_items path_data) ;;
       for_each operations (fun '(method, operation) =>
         fuzz_operation base_url path method operation))).
Proof.
  apply numbered_for_each. intros [path path_data].
  apply numbered_bind; [apply numbered_still; reflexivity | intros operations].
  apply numbered_for_each. intros [method operation].
  apply numbered_fuzz_operation.
Qed.

(** [fuzz_path_parameters] around its loops. *)
Lemma fuzz_path_parameters_loops (spec : json) (base_url : string) (s : state) :
  fuzz_path_parameters spec base_url s
  = match fuzz_loops spec base_url
            (mkState (PositiveResponses s) 1 (trace s ++ [Stdout Starting])) with
    | (s2, Done _) =>
        (mkState (PositiveResponses s2) (RequestsCount s2)
           (trace s2 ++ [Stdout (Completed (RequestsCount s2 - 1))]),
         Done tt)
    | (s2, Raised e) => (s2, Raised e)
    end.
Proof.
  unfold fuzz_path_parameters, fuzz_loops, bind, lift, print, emit, set_count. simpl.
  destruct (py_get spec "paths" (JObject [])) as [paths | e]; [| reflexivity].
  destruct (py_items paths) as [items | e]; [| reflexivity].
  destruct (for_each items _ _) as [s2 [[] | e]]; reflexivity.
Qed.

Lemma numbered_fuzz_loops (spec : json) (base_url : string) :
  numbered (fuzz_loops spec base_url).
Proof.
  unfold fuzz_loops.
  apply numbered_bind; [apply numbered_still; reflexivity | intros paths].
  apply numbered_bind; [apply numbered_still; reflexivity | intros items].
  apply numbered_loops.
Qed.

(** X3. The counter of the fuzz loop counts every request that was sent:
    for every document, base URL and server, and however the loop ends
    (normally, on an interruption in the middle of a request, on an error),
    the loop has sent some number [k] of requests, has announced them with
    the numbers 1 to [k] in order, and leaves the counter at [1 + k]; when it
    returns normally the total it prints last is this [k]. *)
Theorem counter_counts_requests (spec : json) (base_url : string) (s : state) :
  exists k,
    RequestsCount (fst (fuzz_path_parameters spec base_url s)) = 1 + k
    /\ request_numbers (trace (fst (fuzz_path_parameters spec base_url s)))
       = request_numbers (trace s) ++ seq 1 k
    /\ List.length (requests_of (trace (fst (fuzz_path_parameters spec base_url s))))
       = List.length (requests_of (trace s)) + k
    /\ (snd (fuzz_path_parameters spec base_url s) = Done tt ->
        exists t,
          trace (fst (fuzz_path_parameters spec base_url s))
          = t ++ [Stdout (Completed k)]).
Proof.
  rewrite fuzz_path_parameters_loops.
  destruct (numbered_fuzz_loops spec base_url
              (mkState (PositiveResponses s) 1 (trace s ++ [Stdout Starting])))
    as [k [C [N R]]].
  exists k. simpl in C, N, R.
  rewrite request_numbers_app in N. rewrite requests_of_app in R.
  simpl in N, R. rewrite !app_nil_r in N, R.
  destruct (fuzz_loops spec base_url _) as [s2 [[] | e]]; simpl in *.
  - rewrite request_numbers_app, requests_of_app. simpl. rewrite !app_nil_r.
    repeat split; try assumption.
    intros _. exists (trace s2). rewrite C. simpl. rewrite Nat.sub_0_r. reflexivity.
  - repeat split; try assumption. discriminate.
Qed.

End Counter.

(* ================================================================== *)
(** * The findings of the fuzz loop *)

Section Report.

Context {W : World}.

Lemma absorb_app (count : nat) (l1 l2 : list (string * string * string))
    (findings : list string) :
  absorb count (l1 ++ l2) findings
  = absorb (count + List.length l1) l2 (absorb count l1 findings).
Proof.
  revert count findings.
  induction l1 as [| [[path method] full_url] r IH]; intros count findings; simpl.
  - rewrite Nat.add_0_r. reflexivity.
  - rewrite IH. f_equal. lia.
Qed.

Lemma In_recorded (path other : string) (findings : list string) :
  In other findings \/ other = path -> In other (recorded path findings).
Proof.
  unfold recorded.
  destruct (existsb (String.eqb path) findings) eqn:E; intros [H | H].
  - exact H.
  - subst. apply existsb_eqb_In. exact E.
  - apply in_or_app. left. exact H.
  - subst. apply in_or_app. right. left. reflexivity.
Qed.

(** A finding is never lost. *)
Lemma absorb_keeps (count : nat) (sent : list (string * string * string))
    (findings : list string) (path : string) :
  In path findings -> In path (absorb count sent findings).
Proof.
  revert count findings.
  induction sent as [| [[p m] u] r IH]; intros count findings H; simpl.
  - exact H.
  - apply IH. destruct (server count m u) as [code | |]; try exact H.
    destruct (code =? 200)%Z; [| exact H].
    apply In_recorded. left. exact H.
Qed.

(** A request answered with 200 puts its template among the findings. *)
Lemma absorb_hit (count k : nat) (sent : list (string * string * string))
    (findings : list string) (path method full_url : string) :
  nth_error sent k = Some (path, method, full_url) ->
  server (count + k) method full_url = Response 200 ->
  In path (absorb count sent findings).
Proof.
  revert count k findings.
  induction sent as [| [[p m] u] r IH]; intros count k findings Hn Hs.
  - destruct k; discriminate.
  - destruct k as [| k]; simpl in Hn |- *.
    + inversion Hn; subst. rewrite Nat.add_0_r in Hs. rewrite Hs. simpl.
      apply absorb_keeps. apply In_recorded. right. reflexivity.
    + apply (IH (S count) k); [exact Hn |].
      replace (S count + k) with (count + S k) by lia. exact Hs.
Qed.

Lemma runs_ret : runs (ret tt) [].
Proof.
  intros s. exists s. simpl. rewrite app_nil_r, Nat.add_0_r. auto.
Qed.

Lemma runs_seq (m k : M unit) (l1 l2 : list (string * string * string)) :
  runs m l1 -> runs k l2 -> runs (m ;; k) (l1 ++ l2).
Proof.
  intros Hm Hk s.
  destruct (Hm s) as [s1 [E1 [T1 [C1 F1]]]].
  destruct (Hk s1) as [s2 [E2 [T2 [C2 F2]]]].
  exists s2. unfold bind. rewrite E1.
  split; [exact E2 |]. split; [| split].
  - rewrite T2, T1, map_app, app_assoc. reflexivity.
  - rewrite C2, C1, length_app. lia.
  - rewrite F2, F1, C1, absorb_app. reflexivity.
Qed.

Lemma runs_for_each {A} (xs : list A) (body : A -> M unit)
    (f : A -> list (string * string * string)) :
  (forall x, In x xs -> runs (body x) (f x)) ->
  runs (for_each xs body) (flat_map f xs).
Proof.
  induction xs as [| x r IH]; intros H; simpl.
  - apply runs_ret.
  - apply runs_seq.
    + apply H; left; reflexivity.
    + apply IH. intros y Hy. apply H; right; exact Hy.
Qed.

Lemma runs_request (path method full_url : string) :
  answers ->
  runs ((fun s => print (RequestLine (RequestsCount s) method full_url) s) ;;
        send path method full_url)
       [(path, method, full_url)].
Proof.
  intros Hans s. unfold bind, print, emit, send, try_finally. simpl.
  destruct (server (RequestsCount s) method full_url) as [code | msg | e] eqn:E.
  - unfold bind. simpl. rewrite classify_spec. simpl. unfold recorded.
    destruct (code =? 200)%Z;
      [destruct (existsb (String.eqb path) (PositiveResponses s)) |];
      simpl; eexists; (split; [reflexivity |]); simpl;
      rewrite ?requests_of_app; simpl; rewrite ?requests_of_app; simpl;
      rewrite ?app_nil_r; auto.
  - simpl. eexists. split; [reflexivity |]. simpl.
    rewrite ?requests_of_app; simpl. rewrite ?requests_of_app; simpl.
    rewrite ?app_nil_r. auto.
  - exfalso. exact (Hans _ _ _ _ E).
Qed.

Lemma runs_fuzz_operation base_url path method operation :
  answers ->
  well_formed_operation operation = true ->
  (fuzzable operation = true ->
   forall payload, In payload FUZZ_PAYLOADS ->
     exists full_url, target_of base_url path operation payload = Done full_url) ->
  runs (fuzz_operation base_url path method operation)
    (if fuzzable operation then planned_for base_url (path, method, operation) else []).
Proof.
  intros Hans Hwf Hres.
  pose proof (path_params_of_well_formed operation Hwf) as Hpp.
  assert (Hnamed : forallb has_name (filter in_path (declared_parameters operation)) = true).
  { apply forallb_forall. intros p Hp. apply filter_In in Hp. destruct Hp as [Hin Hpath].
    destruct operation; try discriminate. simpl in Hwf, Hin.
    destruct (assoc "parameters" m) as [[| | | | | l |] |]; try discriminate;
      try (destruct Hin).
    rewrite forallb_forall in Hwf. specialize (Hwf p Hin).
    rewrite Hpath in Hwf. simpl in Hwf. apply andb_true_iff in Hwf. tauto. }
  rewrite fuzzable_filter in *.
  intros s. unfold fuzz_operation, bind at 1, lift. rewrite Hpp.
  destruct (filter in_path (declared_parameters operation)) as [| p ps] eqn:Ef.
  - simpl. apply runs_ret.
  - simpl negb. cbv iota. unfold planned_for.
    assert (Hrun : runs (for_each FUZZ_PAYLOADS (fuzz_one base_url path method (p :: ps)))
                     (flat_map (fun payload =>
                                  [(path, method, target base_url path operation payload)])
                        FUZZ_PAYLOADS)).
    { apply runs_for_each. intros payload Hpay.
      destruct (Hres eq_refl payload Hpay) as [full_url Ht].
      unfold target. rewrite Ht.
      unfold target_of in Ht. rewrite Hpp in Ht.
      destruct (substitute_named (p :: ps) payload path Hnamed) as [fuzzed_path Hsub].
      rewrite Hsub in Ht.
      intros s0. destruct (runs_request path method full_url Hans s0) as [s' Hs'].
      exists s'. unfold fuzz_one, bind at 1 2, lift. rewrite Hsub, Ht. exact Hs'. }
    rewrite flat_map_singleton in Hrun. exact (Hrun s).
Qed.

Lemma runs_fuzz_loops base_url (spec : json) :
  answers ->
  well_formed_spec spec = true ->
  resolvable base_url spec = true ->
  runs (fuzz_loops spec base_url) (planned base_url spec).
Proof.
  intros Hans Hwf Hres. unfold planned, fuzz_loops.
  destruct spec as [| | | | | | m]; try discriminate.
  unfold fuzzable_pairs. simpl in Hwf |- *.
  destruct (assoc "paths" m) as [[| | | | | | paths] |] eqn:Ep; try discriminate.
  - assert (Hops : operations_of (JObject m)
                   = flat_map (fun '(path, path_data) =>
                                 match path_data with
                                 | JObject operations =>
                                     map (fun '(method, operation) =>
                                            (path, method, operation)) operations
                                 | _ => []
                                 end) paths)
      by (simpl; rewrite Ep; reflexivity).
    intros s. unfold bind at 1 2, lift. simpl. revert s.
    rewrite <- flat_map_filter, flat_map_nested.
    apply runs_for_each. intros [path path_data] Hin.
    rewrite forallb_forall in Hwf. pose proof (Hwf _ Hin) as Hpd. simpl in Hpd.
    destruct path_data as [| | | | | | operations]; try discriminate.
    intros s. unfold bind at 1, lift. simpl py_items. cbv iota.
    revert s. rewrite flat_map_concat_map, map_map, <- flat_map_concat_map.
    apply runs_for_each. intros [method operation] Hop.
    rewrite forallb_forall in Hpd. pose proof (Hpd _ Hop) as Hwo. simpl in Hwo.
    apply runs_fuzz_operation; [exact Hans | exact Hwo |].
    intros Hf payload Hpay.
    exact (resolvable_target base_url (JObject m) paths path operations method
             operation payload Hops Hres Hin Hop Hf Hpay).
  - intros s. unfold bind at 1 2, lift. simpl. apply runs_ret.
Qed.

(** X4. What the fuzz loop reports.  For a specification that follows the
    data model, URLs that [urljoin] accepts and a server that answers, the
    requests sent are the planned ones, the [k]-th of them being request
    number [1 + k]; the findings afterwards are the earlier findings with
    every template recorded in turn whose request was answered with 200; and
    so every template that drew a 200 on any of its requests is among the
    findings. *)
Theorem findings_of_loop (spec : json) (base_url : string) (s : state) :
  well_formed_spec spec = true ->
  resolvable base_url spec = true ->
  answers ->
  requests_of (trace (fst (fuzz_path_parameters spec base_url s)))
  = requests_of (trace s)
    ++ map (fun '(_, method, full_url) => (method, full_url)) (planned base_url spec)
  /\ PositiveResponses (fst (fuzz_path_parameters spec base_url s))
     = absorb 1 (planned base_url spec) (PositiveResponses s)
  /\ (forall k path method full_url,
        nth_error (planned base_url spec) k = Some (path, method, full_url) ->
        server (1 + k) method full_url = Response 200 ->
        In path (PositiveResponses (fst (fuzz_path_parameters spec base_url s)))).
Proof.
  intros Hwf Hres Hans.
  rewrite fuzz_path_parameters_loops.
  destruct (runs_fuzz_loops base_url spec Hans Hwf Hres
              (mkState (PositiveResponses s) 1 (trace s ++ [Stdout Starting])))
    as [s2 [E [T [C F]]]].
  rewrite E. simpl in *.
  rewrite requests_of_app in T |- *. simpl in T |- *.
  rewrite app_nil_r in T |- *.
  split; [exact T |]. split; [exact F |].
  intros k path method full_url Hn Hs. rewrite F.
  exact (absorb_hit 1 k _ _ path method full_url Hn Hs).
Qed.

End Report.

(* ================================================================== *)
(** * Documents the loop cannot walk *)

Section Malformed.

Context {W : World}.

Lemma runs_then_aborts (m k : M unit) (l1 l2 : list (string * string * string))
    (e : exn) :
  runs m l1 -> aborts k l2 e -> aborts (m ;; k) (l1 ++ l2) e.
Proof.
  intros Hm Hk s.
  destruct (Hm s) as [s1 [E1 [T1 [C1 F1]]]].
  destruct (Hk s1) as [s2 [E2 [T2 F2]]].
  exists s2. unfold bind. rewrite E1.
  split; [exact E2 |]. split.
  - rewrite T2, T1, map_app, app_assoc. reflexivity.
  - rewrite F2, F1, C1, absorb_app. reflexivity.
Qed.

(** A loop whose body raises on one element, after the elements before it
    have run. *)
Lemma aborts_for_each {A} (l1 l2 : list A) (x : A) (body : A -> M unit)
    (f : A -> list (string * string * string))
    (sent : list (string * string * string)) (e : exn) :
  (forall y, In y l1 -> runs (body y) (f y)) -> aborts (body x) sent e ->
  aborts (for_each (l1 ++ x :: l2) body) (flat_map f l1 ++ sent) e.
Proof.
  intros H1 Hx. induction l1 as [| y r IH].
  - simpl. intros s. destruct (Hx s) as [s' [E [T F]]].
    exists s'. unfold bind. rewrite E. auto.
  - simpl. rewrite <- app_assoc. apply runs_then_aborts.
    + apply H1. left. reflexivity.
    + apply IH. intros z Hz. apply H1. right. exact Hz.
Qed.

(** The requests of the operations of one path item. *)
Lemma runs_operations base_url path (operations : list (string * json)) :
  answers ->
  forallb (fun '(_, operation) => well_formed_operation operation) operations = true ->
  (forall method operation payload,
     In (method, operation) operations -> fuzzable operation = true ->
     In payload FUZZ_PAYLOADS ->
     exists full_url, target_of base_url path operation payload = Done full_url) ->
  forall method operation, In (method, operation) operations ->
    runs (fuzz_operation base_url path method operation)
      (if fuzzable operation then planned_for base_url (path, method, operation)
       else []).
Proof.
  intros Hans Hwf Hres method operation Hin.
  rewrite forallb_forall in Hwf. pose proof (Hwf _ Hin) as Hwo. simpl in Hwo.
  apply runs_fuzz_operation; [exact Hans | exact Hwo |].
  intros Hf payload Hpay. eapply Hres; eauto.
Qed.

Lemma operation_not_an_object base_url path member (v : json) :
  is_object v = false ->
  aborts (fuzz_operation base_url path member v) [] AttributeError.
Proof.
  intros Hv s. exists s. simpl. rewrite app_nil_r.
  split; [| auto].
  unfold fuzz_operation, bind, lift, path_params_of, py_get.
  destruct v; try discriminate; reflexivity.
Qed.

Lemma planned_cut base_url (before : list (string * json)) (path : string)
    (operations : list (string * json)) :
  planned base_url (document_of (before ++ [(path, JObject operations)]))
  = flat_map (fun '(path, path_data) =>
                match path_data with
                | JObject operations =>
                    flat_map (fun '(method, operation) =>
                                if fuzzable operation
                                then planned_for base_url (path, method, operation)
                                else []) operations
                | _ => []
                end) before
    ++ flat_map (fun '(method, operation) =>
                   if fuzzable operation
                   then planned_for base_url (path, method, operation)
                   else []) operations.
Proof.
  unfold planned, fuzzable_pairs, document_of, operations_of. simpl assoc. cbv iota.
  rewrite <- flat_map_filter, flat_map_nested, flat_map_app. simpl.
  rewrite app_nil_r. f_equal.
  - apply flat_map_ext. intros [p pd]. destruct pd; try reflexivity.
    rewrite flat_map_concat_map, map_map, <- flat_map_concat_map.
    apply flat_map_ext. intros [method operation]. reflexivity.
  - rewrite flat_map_concat_map, map_map, <- flat_map_concat_map.
    apply flat_map_ext. intros [method operation]. reflexivity.
Qed.

(** X5. A member of a path item that is not an object (OpenAPI allows
    [parameters], [summary], [description], [servers] beside the operations)
    stops the loop with [AttributeError] when the loop reaches it.  The
    requests sent and the findings made are those of the document cut off
    just before that member, provided this part follows the data model, its
    URLs can be joined and the server answers: the operations after the
    member, and the path items after it, are never fuzzed. *)
Theorem member_not_an_operation (base_url : string) (m : list (string * json))
    (before : list (string * json)) (path : string)
    (operations_before : list (string * json)) (member : string) (v : json)
    (operations_after after : list (string * json)) (s : state) :
  assoc "paths" m
  = Some (JObject
            (before
             ++ (path, JObject (operations_before ++ (member, v) :: operations_after))
             :: after)) ->
  is_object v = false ->
  well_formed_spec (document_of (before ++ [(path, JObject operations_before)])) = true ->
  resolvable base_url (document_of (before ++ [(path, JObject operations_before)]))
  = true ->
  answers ->
  snd (fuzz_path_parameters (JObject m) base_url s) = Raised AttributeError
  /\ requests_of (trace (fst (fuzz_path_parameters (JObject m) base_url s)))
     = requests_of (trace s)
       ++ map (fun '(_, method, full_url) => (method, full_url))
            (planned base_url
               (document_of (before ++ [(path, JObject operations_before)])))
  /\ PositiveResponses (fst (fuzz_path_parameters (JObject m) base_url s))
     = absorb 1
         (planned base_url (document_of (before ++ [(path, JObject operations_before)])))
         (PositiveResponses s).
Proof.
  intros Ep Hv Hwf Hres Hans.
  set (cut := document_of (before ++ [(path, JObject operations_before)])) in *.
  assert (Hops : operations_of cut
                 = flat_map (fun '(path, path_data) =>
                               match path_data with
                               | JObject operations =>
                                   map (fun '(method, operation) =>
                                          (path, method, operation)) operations
                               | _ => []
                               end) (before ++ [(path, JObject operations_before)]))
    by reflexivity.
  assert (Hwf' : forallb (fun '(_, path_data) =>
                            match path_data with
                            | JObject operations =>
                                forallb (fun '(_, operation) =>
                                           well_formed_operation operation) operations
                            | _ => false
                            end) (before ++ [(path, JObject operations_before)]) = true)
    by exact Hwf.
  rewrite forallb_app in Hwf'. apply andb_true_iff in Hwf'.
  destruct Hwf' as [Hwb Hwl]. simpl in Hwl. rewrite Bool.andb_true_r in Hwl.
  assert (Habort : aborts (fuzz_loops (JObject m) base_url) (planned base_url cut)
                     AttributeError).
  { unfold cut. rewrite planned_cut. intros s0.
    unfold fuzz_loops, bind at 1 2, lift. simpl. rewrite Ep. simpl. revert s0.
    apply aborts_for_each.
    - intros [p pd] Hin.
      rewrite forallb_forall in Hwb. pose proof (Hwb _ Hin) as Hpd. simpl in Hpd.
      destruct pd as [| | | | | | operations]; try discriminate.
      intros s0. unfold bind at 1, lift. simpl py_items. cbv iota. revert s0.
      apply runs_for_each. intros [method operation] Hop.
      apply (runs_operations base_url p operations Hans Hpd); [| exact Hop].
      intros method' operation' payload Hop' Hf Hpay.
      apply (resolvable_target base_url cut _ p operations method' operation'
               payload Hops Hres); auto.
      apply in_or_app. left. exact Hin.
    - replace (flat_map _ operations_before)
        with (flat_map (fun '(method, operation) =>
                          if fuzzable operation
                          then planned_for base_url (path, method, operation)
                          else []) operations_before ++ [])
        by apply app_nil_r.
      intros s0. unfold bind at 1, lift. simpl py_items. cbv iota. revert s0.
      apply aborts_for_each.
      + intros [method operation] Hop.
        apply (runs_operations base_url path operations_before Hans Hwl); [| exact Hop].
        intros method' operation' payload Hop' Hf Hpay.
        apply (resolvable_target base_url cut _ path operations_before method'
                 operation' payload Hops Hres); auto.
        apply in_or_app. right. left. reflexivity.
      + apply operation_not_an_object. exact Hv. }
  rewrite fuzz_path_parameters_loops.
  destruct (Habort (mkState (PositiveResponses s) 1 (trace s ++ [Stdout Starting])))
    as [s2 [E [T F]]].
  rewrite E. simpl in *.
  rewrite requests_of_app in T. simpl in T. rewrite app_nil_r in T.
  auto.
Qed.

End Malformed.

(* ================================================================== *)
(** * Operations the loop cannot fuzz *)

Section OperationErrors.

Context {W : World}.

Lemma select_path_params_not_objects (l : list json) :
  forallb is_object l = false -> select_path_params l = Raised AttributeError.
Proof.
  induction l as [| p r IH]; simpl; [discriminate |].
  destruct p; simpl; try reflexivity.
  intros H. rewrite (IH H). destruct (assoc "in" m); reflexivity.
Qed.

Lemma substitute_unnamed (path_params : list json) (payload fuzzed_path : string) :
  forallb is_object path_params = true ->
  existsb (fun p => negb (has_name p)) path_params = true ->
  substitute path_params payload fuzzed_path = Raised KeyError.
Proof.
  revert fuzzed_path.
  induction path_params as [| p r IH]; simpl; intros fuzzed_path Ho Hn;
    [discriminate |].
  apply andb_true_iff in Ho. destruct Ho as [Hp Hr].
  destruct p as [| | | | | | items]; try discriminate. simpl in *.
  destruct (assoc "name" items) as [name |]; [| reflexivity].
  simpl in Hn. apply IH; assumption.
Qed.

(** X6. An operation whose parameters the loop cannot use stops the loop
    before any request for its (path, method) pair is sent or announced:
    with [KeyError] when a parameter located in the path has no [name], with
    [AttributeError] when an element of [parameters] is not an object, and
    with [TypeError] when [parameters] is null, a boolean or a number. *)
Theorem unusable_parameters (base_url path method : string)
    (m : list (string * json)) (parameters : json) (s : state) :
  assoc "parameters" m = Some parameters ->
  (forall l, parameters = JArray l -> forallb is_object l = true ->
     existsb (fun p => in_path p && negb (has_name p)) l = true ->
     fuzz_operation base_url path method (JObject m) s = (s, Raised KeyError))
  /\ (forall l, parameters = JArray l -> forallb is_object l = false ->
      fuzz_operation base_url path method (JObject m) s = (s, Raised AttributeError))
  /\ (iterable parameters = false ->
      fuzz_operation base_url path method (JObject m) s = (s, Raised TypeError)).
Proof.
  intros E. split; [| split].
  - intros l -> Ho Hn.
    assert (Hpp : path_params_of (JObject m) = Done (filter in_path l)).
    { unfold path_params_of. simpl. rewrite E.
      apply select_path_params_objects. exact Ho. }
    assert (Hfo : forallb is_object (filter in_path l) = true).
    { apply forallb_forall. intros p Hp. apply filter_In in Hp.
      rewrite forallb_forall in Ho. apply Ho. tauto. }
    assert (Hfn : existsb (fun p => negb (has_name p)) (filter in_path l) = true).
    { apply existsb_exists in Hn. destruct Hn as [p [Hin Hp]].
      apply andb_true_iff in Hp. destruct Hp as [Hpath Hname].
      apply existsb_exists. exists p. split; [| exact Hname].
      apply filter_In. tauto. }
    unfold fuzz_operation, bind at 1, lift. rewrite Hpp.
    destruct (filter in_path l) as [| p ps]; [discriminate |].
    simpl. unfold bind at 1. unfold fuzz_one, bind at 1, lift.
    rewrite (substitute_unnamed (p :: ps) "1" path Hfo Hfn). reflexivity.
  - intros l -> Ho.
    unfold fuzz_operation, bind, lift, path_params_of. simpl. rewrite E.
    rewrite (select_path_params_not_objects l Ho). reflexivity.
  - intros Hi.
    unfold fuzz_operation, bind, lift, path_params_of. simpl. rewrite E.
    destruct parameters; try discriminate; reflexivity.
Qed.

End OperationErrors.

(* ================================================================== *)
(** * A base URL that ends in a slash *)

Section TrailingSlash.

Context {W : World}.










End TrailingSlash.

(* ================================================================== *)
(** * A whole run *)

Section WholeRun.

Context {W : World}.

Lemma well_formed_falsy (spec : json) :
  well_formed_spec spec = true -> truthy spec = false -> spec = JObject [].
Proof.
  destruct spec; try discriminate. destruct m; [reflexivity | discriminate].
Qed.

(** X8. A whole run on a specification that follows the data model, with
    URLs that can be joined and a server that answers: the driver returns
    normally, its findings are the earlier findings with every template
    recorded in turn whose request was answered with 200, and the run ends
    with the persistence of exactly these findings (the results file that
    lists them, or the notice that there is none). *)
Theorem report_of_run (openapi_file base_url : string) (spec : json) (s : state) :
  fs_read openapi_file = Parsed spec ->
  well_formed_spec spec = true ->
  resolvable base_url spec = true ->
  answers ->
  snd (driver openapi_file base_url s) = Done tt
  /\ PositiveResponses (fst (driver openapi_file base_url s))
     = absorb 1 (planned base_url spec) (PositiveResponses s)
  /\ exists t,
       trace (fst (driver openapi_file base_url s))
       = t ++ persisted (absorb 1 (planned base_url spec) (PositiveResponses s)).
Proof.
  intros E Hwf Hres Hans.
  assert (H : snd (load_and_fuzz openapi_file base_url s) = Done tt
              /\ PositiveResponses (fst (load_and_fuzz openapi_file base_url s))
                 = absorb 1 (planned base_url spec) (PositiveResponses s)).
  { destruct (truthy spec) eqn:Ht.
    - assert (El : load_and_fuzz openapi_file base_url s
                   = fuzz_path_parameters spec base_url
                       (mkState (PositiveResponses s) (RequestsCount s)
                          (trace s ++ [Stdout (LoadingSpec openapi_file)]))).
      { unfold load_and_fuzz, load_openapi_spec, bind, print, emit.
        rewrite E. simpl. rewrite Ht. reflexivity. }
      rewrite El, fuzz_path_parameters_loops.
      destruct (runs_fuzz_loops base_url spec Hans Hwf Hres
                  (mkState (PositiveResponses s) 1
                     ((trace s ++ [Stdout (LoadingSpec openapi_file)])
                      ++ [Stdout Starting])))
        as [s2 [E2 [_ [_ F]]]].
      simpl. rewrite E2. simpl. auto.
    - rewrite (load_and_fuzz_falsy openapi_file base_url spec s E Ht). simpl.
      rewrite (well_formed_falsy spec Hwf Ht). auto. }
  destruct H as [Hr Hf]. rewrite driver_spec. simpl. rewrite Hr, Hf. simpl.
  split; [reflexivity | split; [reflexivity |]].
  exists (trace (fst (load_and_fuzz openapi_file base_url s))). reflexivity.
Qed.

End WholeRun.

(* ================================================================== *)
(** * Runs that are cut short *)

Section CutShort.

Context {W : World}.

Lemma partly_ret : partly (ret tt) [].
Proof.
  intros s. exists 0. simpl. rewrite app_nil_r, Nat.add_0_r. auto.
Qed.

Lemma partly_seq (m k : M unit) (l1 l2 : list (string * string * string)) :
  partly m l1 -> partly k l2 -> partly (m ;; k) (l1 ++ l2).
Proof.
  intros Hm Hk s. unfold bind.
  destruct (Hm s) as [j1 [B1 [T1 [C1 [F1 D1]]]]].
  destruct (m s) as [s1 [[] | e]]; simpl in *.
  - specialize (D1 eq_refl). subst j1. rewrite firstn_all in T1, F1.
    destruct (Hk s1) as [j2 [B2 [T2 [C2 [F2 D2]]]]].
    exists (List.length l1 + j2).
    rewrite firstn_app_2, length_app, T2, T1, C2, C1, F2, F1, C1.
    rewrite map_app, absorb_app, <- app_assoc.
    repeat split; try reflexivity; try lia.
    intros H. rewrite (D2 H). reflexivity.
  - exists j1. rewrite firstn_app.
    replace (j1 - List.length l1) with 0 by lia. simpl. rewrite app_nil_r.
    rewrite length_app. repeat split; try assumption; try lia; discriminate.
Qed.

Lemma partly_for_each {A} (xs : list A) (body : A -> M unit)
    (f : A -> list (string * string * string)) :
  (forall x, In x xs -> partly (body x) (f x)) ->
  partly (for_each xs body) (flat_map f xs).
Proof.
  induction xs as [| x r IH]; intros H; simpl.
  - apply partly_ret.
  - apply partly_seq.
    + apply H; left; reflexivity.
    + apply IH. intros y Hy. apply H; right; exact Hy.
Qed.

(** One announced request: it is sent and counted whatever the server does,
    and recorded according to the answer. *)
Lemma partly_request (path method full_url : string) :
  partly ((fun s => print (RequestLine (RequestsCount s) method full_url) s) ;;
          send path method full_url)
         [(path, method, full_url)].
Proof.
  intros s. exists 1. unfold bind, print, emit, send, try_finally. simpl.
  destruct (server (RequestsCount s) method full_url) as [code | msg | e] eqn:E.
  - unfold bind. simpl. rewrite classify_spec. simpl. unfold recorded.
    destruct (code =? 200)%Z;
      [destruct (existsb (String.eqb path) (PositiveResponses s)) |];
      simpl; rewrite ?requests_of_app; simpl; rewrite ?requests_of_app; simpl;
      rewrite ?app_nil_r; auto.
  - simpl. rewrite ?requests_of_app; simpl. rewrite ?requests_of_app; simpl.
    rewrite ?app_nil_r. auto.
  - simpl. rewrite ?requests_of_app; simpl. rewrite ?requests_of_app; simpl.
    rewrite ?app_nil_r. repeat split; auto.
Qed.

Lemma partly_fuzz_operation base_url path method operation :
  well_formed_operation operation = true ->
  (fuzzable operation = true ->
   forall payload, In payload FUZZ_PAYLOADS ->
     exists full_url, target_of base_url path operation payload = Done full_url) ->
  partly (fuzz_operation base_url path method operation)
    (if fuzzable operation then planned_for base_url (path, method, operation) else []).
Proof.
  intros Hwf Hres.
  pose proof (path_params_of_well_formed operation Hwf) as Hpp.
  assert (Hnamed : forallb has_name (filter in_path (declared_parameters operation)) = true).
  { apply forallb_forall. intros p Hp. apply filter_In in Hp. destruct Hp as [Hin Hpath].
    destruct operation; try discriminate. simpl in Hwf, Hin.
    destruct (assoc "parameters" m) as [[| | | | | l |] |]; try discriminate;
      try (destruct Hin).
    rewrite forallb_forall in Hwf. specialize (Hwf p Hin).
    rewrite Hpath in Hwf. simpl in Hwf. apply andb_true_iff in Hwf. tauto. }
  rewrite fuzzable_filter in *.
  intros s. unfold fuzz_operation, bind at 1 2, lift. rewrite Hpp.
  destruct (filter in_path (declared_parameters operation)) as [| p ps] eqn:Ef.
  - simpl. apply partly_ret.
  - simpl negb. cbv iota. unfold planned_for.
    assert (Hrun : partly (for_each FUZZ_PAYLOADS (fuzz_one base_url path method (p :: ps)))
                     (flat_map (fun payload =>
                                  [(path, method, target base_url path operation payload)])
                        FUZZ_PAYLOADS)).
    { apply partly_for_each. intros payload Hpay.
      destruct (Hres eq_refl payload Hpay) as [full_url Ht].
      unfold target. rewrite Ht.
      unfold target_of in Ht. rewrite Hpp in Ht.
      destruct (substitute_named (p :: ps) payload path Hnamed) as [fuzzed_path Hsub].
      rewrite Hsub in Ht.
      intros s0. destruct (partly_request path method full_url s0) as [j Hj].
      exists j. unfold fuzz_one, bind at 1 2 3 4 5 6 7 8 9 10, lift.
      rewrite Hsub, Ht. exact Hj. }
    rewrite flat_map_singleton in Hrun. exact (Hrun s).
Qed.

Lemma partly_fuzz_loops base_url (spec : json) :
  well_formed_spec spec = true ->
  resolvable base_url spec = true ->
  partly (fuzz_loops spec base_url) (planned base_url spec).
Proof.
  intros Hwf Hres. unfold planned, fuzz_loops.
  destruct spec as [| | | | | | m]; try discriminate.
  unfold fuzzable_pairs. simpl in Hwf |- *.
  destruct (assoc "paths" m) as [[| | | | | | paths] |] eqn:Ep; try discriminate.
  - assert (Hops : operations_of (JObject m)
                   = flat_map (fun '(path, path_data) =>
                                 match path_data with
                                 | JObject operations =>
                                     map (fun '(method, operation) =>
                                            (path, method, operation)) operations
                                 | _ => []
                                 end) paths)
      by (simpl; rewrite Ep; reflexivity).
    intros s. unfold bind at 1 2 3 4, lift. simpl. revert s.
    rewrite <- flat_map_filter, flat_map_nested.
    apply partly_for_each. intros [path path_data] Hin.
    rewrite forallb_forall in Hwf. pose proof (Hwf _ Hin) as Hpd. simpl in Hpd.
    destruct path_data as [| | | | | | operations]; try discriminate.
    intros s. unfold bind at 1 2, lift. simpl py_items. cbv iota.
    revert s. rewrite flat_map_concat_map, map_map, <- flat_map_concat_map.
    apply partly_for_each. intros [method operation] Hop.
    rewrite forallb_forall in Hpd. pose proof (Hpd _ Hop) as Hwo. simpl in Hwo.
    apply partly_fuzz_operation; [exact Hwo |].
    intros Hf payload Hpay.
    exact (resolvable_target base_url (JObject m) paths path operations method
             operation payload Hops Hres Hin Hop Hf Hpay).
  - intros s. unfold bind at 1 2 3 4, lift. simpl. apply partly_ret.
Qed.

(** X9. A fuzz loop that is cut short has done a prefix of its work.  For a
    specification that follows the data model and URLs that can be joined,
    whatever the server does (answer, fail, or let an interruption or another
    exception through), the requests sent are the first [j] planned requests
    in order, for some [j]; the counter stands at [1 + j]; the findings are
    what the answers to these [j] requests make them; and [j] is the whole
    plan when the loop returns normally. *)
Theorem cut_short_run (spec : json) (base_url : string) (s : state) :
  well_formed_spec spec = true ->
  resolvable base_url spec = true ->
  exists j,
    j <= List.length (planned base_url spec)
    /\ requests_of (trace (fst (fuzz_path_parameters spec base_url s)))
       = requests_of (trace s)
         ++ map (fun '(_, method, full_url) => (method, full_url))
              (firstn j (planned base_url spec))
    /\ RequestsCount (fst (fuzz_path_parameters spec base_url s)) = 1 + j
    /\ PositiveResponses (fst (fuzz_path_parameters spec base_url s))
       = absorb 1 (firstn j (planned base_url spec)) (PositiveResponses s)
    /\ (snd (fuzz_path_parameters spec base_url s) = Done tt ->
        j = List.length (planned base_url spec)).
Proof.
  intros Hwf Hres.
  rewrite fuzz_path_parameters_loops.
  destruct (partly_fuzz_loops base_url spec Hwf Hres
              (mkState (PositiveResponses s) 1 (trace s ++ [Stdout Starting])))
    as [j [B [T [C [F D]]]]].
  exists j. simpl in T, C, F.
  rewrite requests_of_app in T. simpl in T. rewrite app_nil_r in T.
  destruct (fuzz_loops spec base_url _) as [s2 [[] | e]]; simpl in *.
  - rewrite requests_of_app. simpl. rewrite app_nil_r. auto.
  - repeat split; auto.
Qed.

End CutShort.

(* ================================================================== *)
(** * Templates without the placeholder *)

Section Absent.

Context {W : World}.

Lemma append_empty (s : string) : (s ++ "")%string = s.
Proof. induction s as [| c s IH]; simpl; [reflexivity | rewrite IH; reflexivity]. Qed.

Lemma replace_absent (name new text : string) :
  brace_free text = true ->
  PyStr.replace ("{" ++ name ++ "}") new text = text.
Proof.
  intros H. unfold PyStr.replace.
  change ("{" ++ name ++ "}")%string with (String "{" (name ++ "}")).
  rewrite <- (append_empty text) at 1.
  rewrite replace_literal by exact H. simpl. apply append_empty.
Qed.

Lemma substitute_absent (path_params : list json) (payload text : string) :
  brace_free text = true -> forallb has_name path_params = true ->
  substitute path_params payload text = Done text.
Proof.
  intros Ht. induction path_params as [| p r IH]; intros H; [reflexivity |].
  simpl in H. apply andb_true_iff in H. destruct H as [Hp Hr].
  destruct p as [| | | | | | items]; try discriminate.
  cbn [substitute py_index]. unfold has_name in Hp.
  destruct (assoc "name" items) as [name |]; [| discriminate].
  rewrite replace_absent by exact Ht. exact (IH Hr).
Qed.

(** X10. A template without braces is sent as it is: when an operation
    declares path parameters but its template has no placeholder, nothing is
    substituted, every payload gives the same URL, and the seven requests of
    the pair are seven times the same request. *)
Theorem template_without_placeholders (base_url path method : string)
    (operation : json) :
  brace_free path = true ->
  well_formed_operation operation = true ->
  (forall payload,
     target_of base_url path operation payload
     = urljoin base_url (PyStr.lstrip "/" path))
  /\ planned_for base_url (path, method, operation)
     = List.repeat (path, method, target base_url path operation "1") 7.
Proof.
  intros Hp Hwf.
  assert (Ht : forall payload,
            target_of base_url path operation payload
            = urljoin base_url (PyStr.lstrip "/" path)).
  { intros payload. unfold target_of.
    rewrite (path_params_of_well_formed operation Hwf).
    rewrite substitute_absent; [reflexivity | exact Hp |].
    apply forallb_forall. intros p Hin. apply filter_In in Hin.
    destruct Hin as [Hin Hpath].
    destruct operation; try discriminate. simpl in Hwf, Hin.
    destruct (assoc "parameters" m) as [[| | | | | l |] |]; try discriminate;
      try (destruct Hin).
    rewrite forallb_forall in Hwf. specialize (Hwf p Hin).
    rewrite Hpath in Hwf. simpl in Hwf. apply andb_true_iff in Hwf. tauto. }
  split; [exact Ht |].
  unfold planned_for, target. simpl. rewrite !Ht. reflexivity.
Qed.

End Absent.

(* ================================================================== *)
(** * The further theorems on sample runs *)

Section MoreSamples.

Import Sample.

(** X1 on a configuration file without [zap_proxy]: both flags are given,
    and the resolution still raises [KeyError]. *)
Lemma configuration_outcome_sample :
  @fs_read lenient "partial.json"
  = Parsed (JObject [("base_url", JString "http://localhost:5000")])
  /\ @resolve_configuration lenient
       (mkArgs (Some "http://10.0.0.1") (Some "api.json") "partial.json") initial
     = (initial, Raised KeyError).
Proof.
  split; [reflexivity |].
  exact (proj1 (proj1 (@configuration_outcome lenient
                         (mkArgs (Some "http://10.0.0.1") (Some "api.json")
                            "partial.json")
                         _ initial eq_refl) _ eq_refl) eq_refl).
Defined.

(** X2 on the sample clock. *)
Lemma timestamp_distinguishes_sample :
  two_digit_fields clock = true
  /\ strftime (mkDatetime 9 5 30 3 11 2126) = strftime clock.
Proof.
  split; [reflexivity |].
  exact (proj2 (timestamp_distinguishes clock clock eq_refl eq_refl)).
Defined.

(** X4 on the sample run: the request on /items/{itemId} that is answered
    with 200 puts the template among the findings. *)
Lemma findings_of_loop_sample :
  well_formed_spec petstore = true
  /\ @resolvable lenient "https://api.example.com" petstore = true
  /\ @answers lenient
  /\ In "/items/{itemId}"
       (PositiveResponses
          (fst (@fuzz_path_parameters lenient petstore "https://api.example.com"
                  initial))).
Proof.
  assert (H1 : well_formed_spec petstore = true) by reflexivity.
  assert (H2 : @resolvable lenient "https://api.example.com" petstore = true)
    by (vm_compute; reflexivity).
  assert (H3 : @answers lenient) by (intros count method full_url e H; discriminate H).
  split; [exact H1 | split; [exact H2 | split; [exact H3 |]]].
  exact (proj2 (proj2 (@findings_of_loop lenient petstore "https://api.example.com"
                         initial H1 H2 H3))
           7 "/items/{itemId}" "get" "https://api.example.com/items/1"
           eq_refl eq_refl).
Defined.

(** X5 on a path item with shared parameters: [get] is fuzzed, the member
    [parameters] stops the loop, [delete] is never reached. *)
Lemma member_not_an_operation_sample :
  snd (@fuzz_path_parameters lenient shared_parameters "https://api.example.com"
         initial)
  = Raised AttributeError
  /\ List.length
       (requests_of
          (trace (fst (@fuzz_path_parameters lenient shared_parameters
                         "https://api.example.com" initial))))
     = 7.
Proof.
  assert (H3 : @answers lenient) by (intros count method full_url e H; discriminate H).
  destruct (@member_not_an_operation lenient "https://api.example.com"
              [("paths",
                JObject
                  [("/items/{itemId}",
                    JObject
                      [("get", JObject [("parameters", JArray [item_parameter])]);
                       ("parameters", JArray [item_parameter]);
                       ("delete", JObject [("parameters", JArray [item_parameter])])])])]
              []
              "/items/{itemId}"
              [("get", JObject [("parameters", JArray [item_parameter])])]
              "parameters" (JArray [item_parameter])
              [("delete", JObject [("parameters", JArray [item_parameter])])]
              [] initial eq_refl eq_refl eq_refl eq_refl H3) as [R [T _]].
  split; [exact R |]. unfold shared_parameters. rewrite T. reflexivity.
Defined.

(** X6 on an operation whose path parameter has no name. *)
Lemma unusable_parameters_sample :
  @fuzz_operation lenient "https://api.example.com" "/items/{itemId}" "get"
    nameless_operation initial
  = (initial, Raised KeyError).
Proof.
  exact (proj1 (@unusable_parameters lenient "https://api.example.com"
                  "/items/{itemId}" "get"
                  [("parameters", JArray [JObject [("in", JString "path")]])]
                  (JArray [JObject [("in", JString "path")]]) initial eq_refl)
           _ eq_refl eq_refl eq_refl).
Defined.


(** X8 on the sample run. *)
Lemma report_of_run_sample :
  @fs_read lenient "openapi.json" = Parsed petstore
  /\ PositiveResponses
       (fst (@driver lenient "openapi.json" "https://api.example.com" initial))
     = ["/users/{id}/orders/{orderId}"; "/items/{itemId}"].
Proof.
  assert (H2 : @resolvable lenient "https://api.example.com" petstore = true)
    by (vm_compute; reflexivity).
  assert (H3 : @answers lenient) by (intros count method full_url e H; discriminate H).
  split; [reflexivity |].
  rewrite (proj1 (proj2 (@report_of_run lenient "openapi.json"
                           "https://api.example.com" petstore initial
                           eq_refl eq_refl H2 H3))).
  vm_compute. reflexivity.
Defined.

(** X9 on the interrupted run: two requests answered, the third one sent
    and interrupted. *)
Lemma cut_short_run_sample :
  well_formed_spec petstore = true
  /\ @resolvable interrupted "https://api.example.com" petstore = true
  /\ exists j,
       j <= 21
       /\ RequestsCount
            (fst (@fuzz_path_parameters interrupted petstore
                    "https://api.example.com" initial))
          = 1 + j.
Proof.
  assert (H1 : well_formed_spec petstore = true) by reflexivity.
  assert (H2 : @resolvable interrupted "https://api.example.com" petstore = true)
    by (vm_compute; reflexivity).
  split; [exact H1 | split; [exact H2 |]].
  destruct (@cut_short_run interrupted petstore "https://api.example.com" initial
              H1 H2) as [j [B [_ [C _]]]].
  exists j. split; [exact B | exact C].
Defined.

(** X10 on a template that does not mention the declared parameter. *)
Lemma template_without_placeholders_sample :
  brace_free "/health" = true
  /\ well_formed_operation stray_parameter = true
  /\ @target_of lenient "https://api.example.com" "/health" stray_parameter "-5"
     = Done "https://api.example.com/health".
Proof.
  split; [reflexivity | split; [reflexivity |]].
  rewrite (proj1 (@template_without_placeholders lenient "https://api.example.com"
                    "/health" "get" stray_parameter eq_refl eq_refl) "-5").
  vm_compute. reflexivity.
Defined.

End MoreSamples.
